(** * jenkinsTF: the mock OAuth2 server and the smart-home bridge of [app.py]

    A shallow embedding of the request handlers of [src/app.py] and the
    properties of its grant state machine, intent dispatcher and trigger
    debouncer.

    Modelling conventions.
    - The module-level dictionaries of the program ([access_tokens],
      [refresh_tokens], [auth_codes], [device_states]) and the global
      [last_trigger_time] are the fields of one [state] record that every
      handler threads through.
    - [request.form.get(k)] and [request.args.get(k)] return [None] for a
      field that was not sent: such fields are [option string].
    - The results of [secrets.token_urlsafe], [time.time] and
      [requests.post] are not computed by the program: a handler takes them
      as arguments, in the order in which it consumes them.
    - [time.time()] is a float; timestamps are exact rationals here, so the
      rounding of the subtraction in the cooldown test is not modelled.
    - The JSON body of [/smarthome] is typed: keys the handler indexes with
      [[...]] are record fields, the key it reads with [.get] is looked up
      in a dictionary. *)

From Stdlib Require Import Ascii QArith Lqa.
From stdpp Require Import gmap strings list fin_maps.

Local Open Scope string_scope.

(** ** Python dictionaries *)

(** [d.get(k)] for a key that may be [None]: no dictionary of the program
    has [None] among its keys. *)
Definition py_get {V : Type} (d : gmap string V) (k : option string) : option V :=
  match k with
  | Some k' => d !! k'
  | None => None
  end.

(** [d.get(k)] for a dictionary whose values are themselves strings or
    [None]: an absent key and a key bound to [None] both give [None]. *)
Definition py_get_flat (d : gmap string (option string)) (k : option string)
  : option string :=
  match py_get d k with
  | Some v => v
  | None => None
  end.

(** [d.pop(k, None)]: the value, if any, and the dictionary without the key. *)
Definition py_pop {V : Type} (d : gmap string V) (k : option string)
  : option V * gmap string V :=
  match k with
  | Some k' => (d !! k', delete k' d)
  | None => (None, d)
  end.

(** [c in s] for a one-character string [c]. *)
Fixpoint contains_char (c : ascii) (s : string) : bool :=
  match s with
  | EmptyString => false
  | String a rest => if decide (a = c) then true else contains_char c rest
  end.

(** ** Observable effects of the EXECUTE path *)

(** The outcome of [requests.post(..., timeout=5)]. *)
Inductive post_outcome :=
  | Responded (status_code : Z)
  | RequestException.

(** The three lines that [trigger_jenkins] prints. *)
Inductive log_line :=
  | DuplicateIgnored
  | SendingRequest (action : string)
  | TriggerFailed.

(** [HttpPost] and [CooldownWrite] carry the clock reading of the call that
    performs them. *)
Inductive effect :=
  | DeviceWrite (did : string) (onoff : bool)
  | LockAcquire
  | LockRelease
  | CooldownWrite (current_time : Q)
  | Stdout (line : log_line)
  | HttpPost (current_time : Q) (action : string).

(** ** Program state *)

Record state := State {
  access_tokens : gmap string (option string);
  refresh_tokens : gmap string (option string);
  auth_codes : gmap string (option string * option string);
  device_states : gmap string bool;
  last_trigger_time : Q;
  (** contents of [tokens.json], [None] while the file does not exist *)
  tokens_file : option (gmap string (option string) * gmap string (option string));
  (** what the process has done so far, most recent first *)
  effects : list effect
}.

Definition MIN_INTERVAL : Q := 10.

Definition with_auth_codes (st : state) (c : gmap string (option string * option string)) : state :=
  State (access_tokens st) (refresh_tokens st) c (device_states st)
        (last_trigger_time st) (tokens_file st) (effects st).

Definition with_tokens (st : state) (a r : gmap string (option string)) : state :=
  State a r (auth_codes st) (device_states st)
        (last_trigger_time st) (tokens_file st) (effects st).

Definition with_device_states (st : state) (d : gmap string bool) : state :=
  State (access_tokens st) (refresh_tokens st) (auth_codes st) d
        (last_trigger_time st) (tokens_file st) (effects st).

Definition with_last_trigger_time (st : state) (t : Q) : state :=
  State (access_tokens st) (refresh_tokens st) (auth_codes st) (device_states st)
        t (tokens_file st) (effects st).

Definition emit (e : effect) (st : state) : state :=
  State (access_tokens st) (refresh_tokens st) (auth_codes st) (device_states st)
        (last_trigger_time st) (tokens_file st) (e :: effects st).

(** [save_tokens_to_file]: the file is overwritten with both token maps. *)
Definition save_tokens_to_file (st : state) : state :=
  State (access_tokens st) (refresh_tokens st) (auth_codes st) (device_states st)
        (last_trigger_time st) (Some (access_tokens st, refresh_tokens st)) (effects st).

(** [load_tokens_from_file]: both maps of the file, or two empty ones. *)
Definition load_tokens_from_file
    (file : option (gmap string (option string) * gmap string (option string)))
  : gmap string (option string) * gmap string (option string) :=
  match file with
  | Some data => data
  | None => (∅, ∅)
  end.

(** The state once the module has been loaded. *)
Definition initial_state
    (file : option (gmap string (option string) * gmap string (option string)))
  : state :=
  let '(a, r) := load_tokens_from_file file in
  State a r ∅ {["jenkins_job" := false]} 0 file [].

(** ** Responses *)

Record execute_result := ExecuteResult {
  ids : list string;
  status : string;
  states_on : bool;
  states_online : bool
}.

Record query_result := QueryResult {
  online : bool;
  on : bool
}.

Record sync_device := SyncDevice {
  sd_id : string;
  sd_type : string;
  sd_traits : list string;
  sd_defaultNames : list string;
  sd_name : string;
  sd_nicknames : list string;
  sd_willReportState : bool
}.

Inductive response :=
  (** a plain body with a status code *)
  | Plain (body : string) (code : Z)
  (** [LOGIN_PAGE] rendered with the three hidden fields *)
  | LoginPage (client_id redirect_uri : option string) (state_param : string)
  | Redirect (location : string)
  | JsonError (error : string) (code : Z)
  | JsonToken (access_token token_type : string) (expires_in : Z)
              (refresh_token : option string)
  | JsonSync (requestId : string) (agentUserId : string) (devices : list sync_device)
  | JsonQuery (requestId : string) (devices : gmap string query_result)
  | JsonExecute (requestId : string) (commands : list execute_result)
  | JsonUnsupportedIntent (requestId : string)
  (** an exception that no handler catches *)
  | Raised (exn : string).

(** ** /authorize *)

Inductive http_method := GET | POST.

(** The fields of [request.args] (GET) or [request.form] (POST). *)
Record authorize_fields := AuthorizeFields {
  af_client_id : option string;
  af_redirect_uri : option string;
  af_state : option string;
  af_username : option string;
  af_password : option string
}.

(** [VALID_CLIENTS] is not defined in [app.py]: the Credential Registry is a
    parameter, a dictionary from client identifier to client secret.
    [code] is the value of [secrets.token_urlsafe(8)]. *)
Definition authorize (VALID_CLIENTS : gmap string string) (st : state)
    (method : http_method) (f : authorize_fields) (code : string)
  : response * state :=
  match method with
  | GET =>
      let state_param := default "" (af_state f) in
      match py_get VALID_CLIENTS (af_client_id f) with
      | None => (Plain "Unknown client_id" 400, st)
      | Some _ => (LoginPage (af_client_id f) (af_redirect_uri f) state_param, st)
      end
  | POST =>
      let state_param := default "" (af_state f) in
      let st1 := with_auth_codes st
                   (<[code := (af_client_id f, af_redirect_uri f)]> (auth_codes st)) in
      match af_redirect_uri f with
      | None => (Raised "TypeError", st1)
      | Some redirect_uri =>
          let separator := if contains_char "?"%char redirect_uri then "&" else "?" in
          (Redirect (redirect_uri +:+ separator +:+ "code=" +:+ code
                     +:+ "&state=" +:+ state_param), st1)
      end
  end.

(** ** /token *)

Record token_fields := TokenFields {
  tf_grant_type : option string;
  tf_code : option string;
  tf_redirect_uri : option string;
  tf_client_id : option string;
  tf_client_secret : option string;
  tf_refresh_token : option string
}.

(** [token16] and [token24] are the values of [secrets.token_urlsafe(16)]
    and [secrets.token_urlsafe(24)]; the refresh grant draws only the first. *)
Definition token (VALID_CLIENTS : gmap string string) (st : state)
    (f : token_fields) (token16 token24 : string)
  : response * state :=
  if decide (tf_grant_type f = Some "authorization_code") then
    if decide (py_get VALID_CLIENTS (tf_client_id f) ≠ tf_client_secret f) then
      (JsonError "invalid_client" 401, st)
    else
      let '(stored, codes) := py_pop (auth_codes st) (tf_code f) in
      let st1 := with_auth_codes st codes in
      match stored with
      | None => (JsonError "invalid_grant" 400, st1)
      | Some (stored_client, stored_uri) =>
          if decide (stored_client ≠ tf_client_id f) then
            (JsonError "invalid_grant" 400, st1)
          else if decide (stored_uri ≠ tf_redirect_uri f) then
            (JsonError "invalid_grant" 400, st1)
          else
            let st2 := with_tokens st1
                         (<[token16 := tf_client_id f]> (access_tokens st1))
                         (<[token24 := tf_client_id f]> (refresh_tokens st1)) in
            (JsonToken token16 "Bearer" 3600 (Some token24), save_tokens_to_file st2)
      end
  else if decide (tf_grant_type f = Some "refresh_token") then
    if decide (py_get VALID_CLIENTS (tf_client_id f) ≠ tf_client_secret f) then
      (JsonError "invalid_client" 401, st)
    else if decide (py_get_flat (refresh_tokens st) (tf_refresh_token f) ≠ tf_client_id f) then
      (JsonError "invalid_grant" 400, st)
    else
      let st1 := with_tokens st
                   (<[token16 := tf_client_id f]> (access_tokens st))
                   (refresh_tokens st) in
      (JsonToken token16 "Bearer" 3600 None, save_tokens_to_file st1)
  else
    (JsonError "unsupported_grant_type" 400, st).

(** ** The trigger debouncer *)

(** [current_time] is the value of [time.time()], [outcome] what
    [requests.post] does if it is reached.  The whole body runs inside
    [with execution_lock]: the lock is released when the block is left, on
    each of its three ways out. *)
Definition trigger_jenkins (st : state) (action : string)
    (current_time : Q) (outcome : post_outcome)
  : bool * state :=
  let st1 := emit LockAcquire st in
  if Qlt_le_dec (current_time - last_trigger_time st1) MIN_INTERVAL then
    let st2 := emit (Stdout DuplicateIgnored) st1 in
    (false, emit LockRelease st2)
  else
    let st2 := emit (CooldownWrite current_time)
                 (with_last_trigger_time st1 current_time) in
    let st3 := emit (Stdout (SendingRequest action)) st2 in
    let st4 := emit (HttpPost current_time action) st3 in
    match outcome with
    | Responded status_code =>
        (bool_decide (status_code = 200%Z), emit LockRelease st4)
    | RequestException =>
        let st5 := emit (Stdout TriggerFailed) st4 in
        (false, emit LockRelease st5)
    end.

(** ** /smarthome *)

Record device_ref := DeviceRef { d_id : string }.

Record execution := Execution {
  (** [params], a JSON object with boolean members *)
  params : gmap string bool
}.

Record command := Command {
  cmd_devices : list device_ref;
  (** [cmd['execution']] has a first element, the only one that is read *)
  execution_head : execution;
  execution_tail : list execution
}.

Record payload := Payload {
  p_devices : list device_ref;
  p_commands : list command
}.

(** [data['requestId']] and the first element of [data['inputs']]. *)
Record smarthome_body := SmarthomeBody {
  requestId : string;
  intent : string;
  input_payload : payload
}.

Definition SYNC_DEVICES : list sync_device :=
  [ SyncDevice "jenkins_job" "action.devices.types.SWITCH"
      ["action.devices.traits.OnOff"] ["Terraform Job"] "Jenkins Apply"
      ["terraform"] true ].

(** The body of the QUERY loop. *)
Definition query_device (st : state) (resp_devices : gmap string query_result)
    (d : device_ref) : gmap string query_result :=
  let did := d_id d in
  let on_state := default false (device_states st !! did) in
  <[did := QueryResult true on_state]> resp_devices.

(** The body of the inner EXECUTE loop, for one device of one command. *)
Definition execute_device (st : state) (did : string) (onoff : bool)
    (current_time : Q) (outcome : post_outcome)
  : execute_result * state :=
  let st1 := emit (DeviceWrite did onoff)
               (with_device_states st (<[did := onoff]> (device_states st))) in
  let '(success, st2) :=
    trigger_jenkins st1 (if onoff then "apply" else "destroy") current_time outcome in
  (ExecuteResult [did] (if success then "SUCCESS" else "ERROR") onoff true, st2).

(** The inner loop.  [obs k] is the clock reading and the outcome of the
    POST for the [k]-th call of [trigger_jenkins] of this request; that
    call is made when [results] has [k] elements. *)
Fixpoint execute_devices (onoff : bool) (devs : list device_ref)
    (obs : nat -> Q * post_outcome) (acc : list execute_result * state)
  : list execute_result * state :=
  match devs with
  | [] => acc
  | dev :: rest =>
      let '(current_time, outcome) := obs (length (fst acc)) in
      let '(r, st') := execute_device (snd acc) (d_id dev) onoff current_time outcome in
      execute_devices onoff rest obs ((fst acc ++ [r])%list, st')
  end.

(** The outer loop over [payload['commands']]. *)
Fixpoint execute_commands (cmds : list command)
    (obs : nat -> Q * post_outcome) (acc : list execute_result * state)
  : list execute_result * state :=
  match cmds with
  | [] => acc
  | cmd :: rest =>
      let onoff := default false (params (execution_head cmd) !! "on") in
      execute_commands rest obs (execute_devices onoff (cmd_devices cmd) obs acc)
  end.

Definition smarthome (st : state) (data : smarthome_body)
    (obs : nat -> Q * post_outcome)
  : response * state :=
  let req_id := requestId data in
  if decide (intent data = "action.devices.SYNC") then
    (JsonSync req_id "user-1234" SYNC_DEVICES, st)
  else if decide (intent data = "action.devices.QUERY") then
    let resp_devices := foldl (query_device st) ∅ (p_devices (input_payload data)) in
    (JsonQuery req_id resp_devices, st)
  else if decide (intent data = "action.devices.EXECUTE") then
    let '(results, st') :=
      execute_commands (p_commands (input_payload data)) obs ([], st) in
    (JsonExecute req_id results, st')
  else
    (JsonUnsupportedIntent req_id, st).

(** ** The server as a whole *)

Inductive request :=
  | Authorize (method : http_method) (f : authorize_fields) (code : string)
  | Token (f : token_fields) (token16 token24 : string)
  | Smarthome (data : smarthome_body) (obs : nat -> Q * post_outcome).

Definition handle (VALID_CLIENTS : gmap string string) (st : state) (req : request)
  : response * state :=
  match req with
  | Authorize method f code => authorize VALID_CLIENTS st method f code
  | Token f token16 token24 => token VALID_CLIENTS st f token16 token24
  | Smarthome data obs => smarthome st data obs
  end.

(** The state after a sequence of requests, served one after the other. *)
Definition run (VALID_CLIENTS : gmap string string) (st : state) (reqs : list request)
  : state :=
  foldl (fun s req => snd (handle VALID_CLIENTS s req)) st reqs.

(** ** Which requests touch a given code, token or device *)

(** The request is a login submission that draws [c] as its code. *)
Definition issues (c : string) (req : request) : Prop :=
  match req with
  | Authorize POST _ code => code = c
  | _ => False
  end.

(** The request is a token request whose [code] field is [c]. *)
Definition presents (c : string) (req : request) : Prop :=
  match req with
  | Token f _ _ => tf_code f = Some c
  | _ => False
  end.

(** The request is a token request that draws [rt] as its 24-byte token. *)
Definition draws_refresh (rt : string) (req : request) : Prop :=
  match req with
  | Token _ _ token24 => token24 = rt
  | _ => False
  end.

(** [params.get('on', False)] for the first execution of a command. *)
Definition requested_on (cmd : command) : bool :=
  default false (params (execution_head cmd) !! "on").

(** The device ids of the commands of a payload, each with the value its
    command requests, in the order in which EXECUTE visits them. *)
Definition targets (cmds : list command) : list (string * bool) :=
  flat_map (fun cmd => map (fun d => (d_id d, requested_on cmd)) (cmd_devices cmd)) cmds.

(** The request is an EXECUTE that names device [did]. *)
Definition executes_on (did : string) (req : request) : Prop :=
  match req with
  | Smarthome data _ =>
      intent data = "action.devices.EXECUTE" /\
      In did (map fst (targets (p_commands (input_payload data))))
  | _ => False
  end.

(** The two EXECUTE loops as one loop over the targets. *)
Fixpoint execute_targets (ts : list (string * bool))
    (obs : nat -> Q * post_outcome) (acc : list execute_result * state)
  : list execute_result * state :=
  match ts with
  | [] => acc
  | (did, onoff) :: rest =>
      let '(current_time, outcome) := obs (length (fst acc)) in
      let '(r, st') := execute_device (snd acc) did onoff current_time outcome in
      execute_targets rest obs ((fst acc ++ [r])%list, st')
  end.

(** [device_states] after the assignments of the loop, in order. *)
Definition assign_all (ts : list (string * bool)) (d : gmap string bool) : gmap string bool :=
  foldl (fun m t => <[t.1 := t.2]> m) d ts.

(** The part of the state that [/smarthome] owns. *)
Definition bridge_fields (st : state) :=
  (device_states st, last_trigger_time st, effects st).

(** The client check of both grants passes: [VALID_CLIENTS.get(client_id)]
    equals [client_secret]. *)
Definition authenticated (VALID_CLIENTS : gmap string string) (f : token_fields) : Prop :=
  py_get VALID_CLIENTS (tf_client_id f) = tf_client_secret f.

(** ** Reading the effect log *)

(** The clock readings of the calls that reached [requests.post], most
    recent first. *)
Fixpoint post_times (es : list effect) : list Q :=
  match es with
  | [] => []
  | HttpPost t _ :: rest => t :: post_times rest
  | _ :: rest => post_times rest
  end.

(** For a log in chronological order and the lock initially [held] or not:
    for each POST, whether the lock was held when it was made. *)
Fixpoint posts_under_lock (held : bool) (chronological : list effect) : list bool :=
  match chronological with
  | [] => []
  | LockAcquire :: rest => posts_under_lock true rest
  | LockRelease :: rest => posts_under_lock false rest
  | HttpPost _ _ :: rest => held :: posts_under_lock held rest
  | _ :: rest => posts_under_lock held rest
  end.

(** Every element of a most-recent-first list of times is at least
    [MIN_INTERVAL] after all the elements behind it. *)
Fixpoint separated (ts : list Q) : Prop :=
  match ts with
  | [] => True
  | t :: earlier => Forall (fun u => (u + MIN_INTERVAL <= t)%Q) earlier /\ separated earlier
  end.

(** The invariant of the debouncer: the POSTs made so far are separated and
    none is later than [last_trigger_time]. *)
Definition cooldown_inv (st : state) : Prop :=
  separated (post_times (effects st)) /\
  Forall (fun u => (u <= last_trigger_time st)%Q) (post_times (effects st)).

(** The part of the state that [/authorize] and [/token] own. *)
Definition grant_stores (st : state) :=
  (access_tokens st, refresh_tokens st, auth_codes st, tokens_file st).

(** ** Example inputs *)

Definition example_clients : gmap string string := {["google-home" := "s3cret"]}.

(** Strings of the shapes that [token_urlsafe] returns for 8, 16 and 24
    bytes: 11, 22 and 32 characters. *)
Definition code_1 : string := "q1W2e3R4t5Y".
Definition access_1 : string := "Jf8sKd02mLq9ZxT4vBn7cA".
Definition access_2 : string := "pX4nV7bQ1zR8mK3sL6dH0g".
Definition access_3 : string := "a9S8d7F6g5H4j3K2l1Z0xQ".
Definition access_4 : string := "M2n4B6v8C0x1Z3l5K7j9Hw".
Definition access_5 : string := "r5T7y9U1i3O5p7A9s1D3fA".
Definition refresh_1 : string := "e4Rr9Tt2Yy7Uu1Ii6Oo3Pp8Aa5Ss0DdF".
Definition refresh_2 : string := "u7Yh2KqP0sLx9VbN4mCz8RtE1wQa6DfG".
Definition refresh_3 : string := "k3Jd8Wm1Qz6Xc0Vb5Nn2Lp9Rs4Tf7Yh0".

(** Three clock readings, 5 and 15 seconds apart. *)
Definition t_0 : Q := 1700000000.
Definition t_5 : Q := 1700000005.
Definition t_15 : Q := 1700000015.

Definition login_ghost : authorize_fields :=
  AuthorizeFields (Some "ghost") (Some "https://oauth.example/cb?p=1")
                  (Some "xyz") (Some "anyone") (Some "anything").

Definition login_google : authorize_fields :=
  AuthorizeFields (Some "google-home") (Some "https://oauth.example/cb")
                  None (Some "user") (Some "pw").

Definition exchange_google (c : string) : token_fields :=
  TokenFields (Some "authorization_code") (Some c) (Some "https://oauth.example/cb")
              (Some "google-home") (Some "s3cret") None.

Definition exchange_ghost (c : string) : token_fields :=
  TokenFields (Some "authorization_code") (Some c) (Some "https://oauth.example/cb?p=1")
              (Some "ghost") None None.

Definition exchange_wrong_uri (c : string) : token_fields :=
  TokenFields (Some "authorization_code") (Some c) (Some "https://evil.example/cb")
              (Some "google-home") (Some "s3cret") None.

Definition refresh_google (rt : string) : token_fields :=
  TokenFields (Some "refresh_token") None None
              (Some "google-home") (Some "s3cret") (Some rt).

(** A refresh request that sends nothing but its grant type. *)
Definition refresh_bare : token_fields :=
  TokenFields (Some "refresh_token") None None None None None.

Definition query_body (dids : list string) : smarthome_body :=
  SmarthomeBody "req-1" "action.devices.QUERY" (Payload (map DeviceRef dids) []).

Definition execute_body (cmds : list command) : smarthome_body :=
  SmarthomeBody "req-2" "action.devices.EXECUTE" (Payload [] cmds).

Definition turn (onoff : bool) (dids : list string) : command :=
  Command (map DeviceRef dids) (Execution {["on" := onoff]}) [].

(** A command whose [params] has no [on] member. *)
Definition no_on_param (dids : list string) : command :=
  Command (map DeviceRef dids) (Execution ∅) [].

(** Three calls of [trigger_jenkins] at [t_0], [t_5] and [t_15]; the
    endpoint answers 200 each time it is reached. *)
Definition obs_three_calls (k : nat) : Q * post_outcome :=
  match k with
  | O => (t_0, Responded 200)
  | 1%nat => (t_5, Responded 200)
  | _ => (t_15, Responded 200)
  end.

(** Every call at the same clock reading [t], with the same outcome. *)
Definition obs_const (t : Q) (o : post_outcome) (k : nat) : Q * post_outcome := (t, o).

(** A token file with one access token and one refresh token. *)
Definition example_file : option (gmap string (option string) * gmap string (option string)) :=
  Some ({[access_1 := Some "google-home"]}, {[refresh_1 := Some "google-home"]}).

(** ** Further readings of requests and logs *)

(** The request is an EXECUTE. *)
Definition is_execute (req : request) : Prop :=
  match req with
  | Smarthome data _ => intent data = "action.devices.EXECUTE"
  | _ => False
  end.

(** Whether [execution_lock] is held at the end of a most-recent-first log:
    the latest lock event decides. *)
Fixpoint lock_held (es : list effect) : bool :=
  match es with
  | [] => false
  | LockAcquire :: _ => true
  | LockRelease :: _ => false
  | _ :: rest => lock_held rest
  end.

(** The number of results with status SUCCESS. *)
Definition successes (results : list execute_result) : nat :=
  length (filter (fun r => status r = "SUCCESS") results).

(** The token maps and the token file agree. *)
Definition file_in_sync (st : state) : Prop :=
  load_tokens_from_file (tokens_file st) = (access_tokens st, refresh_tokens st).

(** A second code, and the state in which [code_1] and [code_2] are both
    pending for [google-home]. *)
Definition code_2 : string := "Zx9Kq3LmP0c".

Definition two_pending_codes : state :=
  run example_clients (initial_state None)
      [Authorize POST login_google code_1; Authorize POST login_google code_2].

(** An EXECUTE that turns [lamp] on and then, in a second command, [lamp]
    and [fan] off. *)
Definition lamp_on_then_off : smarthome_body :=
  execute_body [turn true ["lamp"]; turn false ["lamp"; "fan"]].

(** Every call fails to reach the endpoint, at [t_0]. *)
Definition obs_unreachable : nat -> Q * post_outcome := obs_const t_0 RequestException.

(** A login form without [redirect_uri]. *)
Definition login_no_redirect : authorize_fields :=
  AuthorizeFields (Some "google-home") None (Some "xyz") None None.

(** A code exchange without [redirect_uri]. *)
Definition exchange_no_redirect (c : string) : token_fields :=
  TokenFields (Some "authorization_code") (Some c) None
              (Some "google-home") (Some "s3cret") None.

Definition implicit_grant : token_fields :=
  TokenFields (Some "password") None None (Some "google-home") (Some "s3cret") None.

Definition refresh_wrong_secret (rt : string) : token_fields :=
  TokenFields (Some "refresh_token") None None
              (Some "google-home") (Some "guess") (Some rt).

(** A second client, for a Registry with two entries. *)
Definition two_clients : gmap string string :=
  <["alexa" := "0ther"]> example_clients.

Definition refresh_alexa (rt : string) : token_fields :=
  TokenFields (Some "refresh_token") None None
              (Some "alexa") (Some "0ther") (Some rt).

(** * Properties *)

(** ** Dictionaries *)

Lemma py_pop_absent {V : Type} (d : gmap string V) (k : option string) (c : string) :
  d !! c = None -> (py_pop d k).2 !! c = None.
Proof.
  intros Hc. destruct k as [k'|]; simpl; [|done].
  destruct (decide (k' = c)) as [->|Hne].
  - apply lookup_delete_eq.
  - by rewrite lookup_delete_ne.
Qed.

Lemma py_pop_other {V : Type} (d : gmap string V) (k : option string) (c : string) :
  k <> Some c -> (py_pop d k).2 !! c = d !! c.
Proof.
  intros Hk. destruct k as [k'|]; simpl; [|done].
  apply lookup_delete_ne. congruence.
Qed.

Lemma py_pop_same {V : Type} (d : gmap string V) (c : string) :
  py_pop d (Some c) = (d !! c, delete c d).
Proof. reflexivity. Qed.

(** ** The debouncer and the EXECUTE loops leave the grant stores alone *)

Lemma trigger_jenkins_grant_stores st action t o :
  grant_stores (trigger_jenkins st action t o).2 = grant_stores st.
Proof.
  unfold trigger_jenkins.
  destruct (Qlt_le_dec _ _); [reflexivity|].
  destruct o; reflexivity.
Qed.

Lemma execute_device_grant_stores st did onoff t o :
  grant_stores (execute_device st did onoff t o).2 = grant_stores st.
Proof.
  unfold execute_device.
  match goal with |- context [trigger_jenkins ?s ?a _ _] =>
    pose proof (trigger_jenkins_grant_stores s a t o) as H;
    destruct (trigger_jenkins s a t o) as [ok st2] end.
  exact H.
Qed.

Lemma execute_devices_grant_stores onoff devs obs acc :
  grant_stores (execute_devices onoff devs obs acc).2 = grant_stores acc.2.
Proof.
  revert acc. induction devs as [|dev rest IH]; intros acc; simpl; [done|].
  destruct (obs _) as [t o].
  pose proof (execute_device_grant_stores acc.2 (d_id dev) onoff t o) as H.
  destruct (execute_device _ _ _ _ _) as [r st'].
  by rewrite IH.
Qed.

Lemma execute_commands_grant_stores cmds obs acc :
  grant_stores (execute_commands cmds obs acc).2 = grant_stores acc.2.
Proof.
  revert acc. induction cmds as [|cmd rest IH]; intros acc; simpl; [done|].
  rewrite IH. apply execute_devices_grant_stores.
Qed.

Lemma smarthome_grant_stores st data obs :
  grant_stores (smarthome st data obs).2 = grant_stores st.
Proof.
  unfold smarthome. repeat case_decide; try reflexivity.
  pose proof (execute_commands_grant_stores
                (p_commands (input_payload data)) obs ([], st)) as Hloop.
  destruct (execute_commands _ _ _) as [results st'].
  exact Hloop.
Qed.

(** ** The grant state machine *)

Section Grant.

Context (VALID_CLIENTS : gmap string string).

Lemma authorize_post st f code :
  (authorize VALID_CLIENTS st POST f code).2 =
    with_auth_codes st (<[code := (af_client_id f, af_redirect_uri f)]> (auth_codes st)).
Proof. simpl. by destruct (af_redirect_uri f). Qed.

Lemma authorize_get st f code : (authorize VALID_CLIENTS st GET f code).2 = st.
Proof. simpl. by destruct (py_get _ _). Qed.

(** A code exchange whose client check passes and whose code is stored with
    the presented client and redirect target. *)
Lemma token_code_ok st f t16 t24 c :
  tf_grant_type f = Some "authorization_code" ->
  authenticated VALID_CLIENTS f ->
  tf_code f = Some c ->
  auth_codes st !! c = Some (tf_client_id f, tf_redirect_uri f) ->
  token VALID_CLIENTS st f t16 t24 =
    (JsonToken t16 "Bearer" 3600 (Some t24),
     save_tokens_to_file
       (with_tokens (with_auth_codes st (delete c (auth_codes st)))
          (<[t16 := tf_client_id f]> (access_tokens st))
          (<[t24 := tf_client_id f]> (refresh_tokens st)))).
Proof.
  unfold authenticated. intros Hg Ha Hc Hs. unfold token.
  rewrite decide_True by done.
  rewrite decide_False by (intros Hne; by apply Hne).
  rewrite Hc, py_pop_same, Hs.
  rewrite !decide_False by (intros Hne; by apply Hne).
  reflexivity.
Qed.

(** A code exchange whose client check passes and whose code is not in the
    ledger. *)
Lemma token_code_absent st f t16 t24 :
  tf_grant_type f = Some "authorization_code" ->
  authenticated VALID_CLIENTS f ->
  py_get (auth_codes st) (tf_code f) = None ->
  (token VALID_CLIENTS st f t16 t24).1 = JsonError "invalid_grant" 400.
Proof.
  unfold authenticated. intros Hg Ha Hs. unfold token.
  rewrite decide_True by done.
  rewrite decide_False by (intros Hne; by apply Hne).
  destruct (tf_code f) as [c|]; simpl in *; [rewrite Hs|]; reflexivity.
Qed.

(** A code exchange whose client check passes and whose code is stored with
    another client or another redirect target: the code is popped all the
    same. *)
Lemma token_code_mismatch st f t16 t24 c stored_client stored_uri :
  tf_grant_type f = Some "authorization_code" ->
  authenticated VALID_CLIENTS f ->
  tf_code f = Some c ->
  auth_codes st !! c = Some (stored_client, stored_uri) ->
  stored_client <> tf_client_id f \/ stored_uri <> tf_redirect_uri f ->
  token VALID_CLIENTS st f t16 t24 =
    (JsonError "invalid_grant" 400, with_auth_codes st (delete c (auth_codes st))).
Proof.
  unfold authenticated. intros Hg Ha Hc Hs Hne. unfold token.
  rewrite decide_True by done.
  rewrite decide_False by (intros Hx; by apply Hx).
  rewrite Hc, py_pop_same, Hs.
  repeat case_decide; try reflexivity. tauto.
Qed.

(** A code exchange never answers with tokens when the code is not in the
    ledger, whatever else it presents. *)
Lemma token_code_absent_any st f t16 t24 :
  tf_grant_type f = Some "authorization_code" ->
  py_get (auth_codes st) (tf_code f) = None ->
  (token VALID_CLIENTS st f t16 t24).1 = JsonError "invalid_client" 401 \/
  (token VALID_CLIENTS st f t16 t24).1 = JsonError "invalid_grant" 400.
Proof.
  intros Hg Hs. unfold token.
  rewrite decide_True by done.
  case_decide; [by left|right].
  destruct (tf_code f) as [c|]; simpl in *; [rewrite Hs|]; reflexivity.
Qed.

(** A successful refresh. *)
Lemma token_refresh_ok st f t16 t24 :
  tf_grant_type f = Some "refresh_token" ->
  authenticated VALID_CLIENTS f ->
  py_get_flat (refresh_tokens st) (tf_refresh_token f) = tf_client_id f ->
  token VALID_CLIENTS st f t16 t24 =
    (JsonToken t16 "Bearer" 3600 None,
     save_tokens_to_file
       (with_tokens st (<[t16 := tf_client_id f]> (access_tokens st)) (refresh_tokens st))).
Proof.
  unfold authenticated. intros Hg Ha Hr. unfold token.
  rewrite decide_False by (rewrite Hg; discriminate).
  rewrite decide_True by done.
  rewrite !decide_False by (intros Hx; by apply Hx).
  reflexivity.
Qed.

(** What a token request can do to the three grant stores. *)
Lemma token_stores st f t16 t24 :
  let st' := (token VALID_CLIENTS st f t16 t24).2 in
  (auth_codes st' = auth_codes st \/
   exists c, tf_code f = Some c /\ auth_codes st' = delete c (auth_codes st)) /\
  (refresh_tokens st' = refresh_tokens st \/
   refresh_tokens st' = <[t24 := tf_client_id f]> (refresh_tokens st)) /\
  (access_tokens st' = access_tokens st \/
   access_tokens st' = <[t16 := tf_client_id f]> (access_tokens st)).
Proof.
  unfold token.
  repeat case_decide; simpl; try tauto.
  destruct (tf_code f) as [c|]; simpl; [|tauto].
  destruct (auth_codes st !! c) as [[sc su]|]; simpl;
    repeat case_decide; simpl;
    (split; [right; by exists c | split; by auto]).
Qed.

(** A code that is not in the ledger stays out of it until it is issued
    again. *)
Lemma handle_code_absent st req c :
  ~ issues c req ->
  auth_codes st !! c = None ->
  auth_codes (handle VALID_CLIENTS st req).2 !! c = None.
Proof.
  intros Hi Hc. destruct req as [[|] f code|f t16 t24|data obs]; cbv beta iota delta [handle].
  - by rewrite authorize_get.
  - rewrite authorize_post. simpl. rewrite lookup_insert_ne; [done|]. exact Hi.
  - destruct (token_stores st f t16 t24) as ([->|(c' & _ & ->)] & _); [done|].
    destruct (decide (c' = c)) as [->|Hne].
    + apply lookup_delete_eq.
    + by rewrite lookup_delete_ne.
  - pose proof (smarthome_grant_stores st data obs) as Hgs.
    injection Hgs as _ Hrt Hac _. by rewrite ?Hrt, ?Hac.
Qed.

Lemma run_code_absent reqs st c :
  Forall (fun req => ~ issues c req) reqs ->
  auth_codes st !! c = None ->
  auth_codes (run VALID_CLIENTS st reqs) !! c = None.
Proof.
  intros Hreqs. revert st.
  induction Hreqs as [|req reqs Hreq _ IH]; intros st Hc; [done|].
  apply IH. by apply handle_code_absent.
Qed.

(** A stored code keeps its binding until it is issued again or presented. *)
Lemma handle_code_kept st req c :
  ~ issues c req -> ~ presents c req ->
  auth_codes (handle VALID_CLIENTS st req).2 !! c = auth_codes st !! c.
Proof.
  intros Hi Hp. destruct req as [[|] f code|f t16 t24|data obs]; cbv beta iota delta [handle].
  - by rewrite authorize_get.
  - rewrite authorize_post. simpl. rewrite lookup_insert_ne; [done|]. exact Hi.
  - destruct (token_stores st f t16 t24) as ([->|(c' & Hc' & ->)] & _); [done|].
    apply lookup_delete_ne. intros ->. by apply Hp.
  - pose proof (smarthome_grant_stores st data obs) as Hgs.
    injection Hgs as _ Hrt Hac _. by rewrite ?Hrt, ?Hac.
Qed.

Lemma run_code_kept reqs st c :
  Forall (fun req => ~ issues c req /\ ~ presents c req) reqs ->
  auth_codes (run VALID_CLIENTS st reqs) !! c = auth_codes st !! c.
Proof.
  intros Hreqs. revert st.
  induction Hreqs as [|req reqs [Hi Hp] _ IH]; intros st; [done|].
  unfold run in *. simpl. rewrite IH. by apply handle_code_kept.
Qed.

(** A refresh token keeps its binding until a token request draws the same
    string again. *)
Lemma handle_refresh_kept st req rt :
  ~ draws_refresh rt req ->
  refresh_tokens (handle VALID_CLIENTS st req).2 !! rt = refresh_tokens st !! rt.
Proof.
  intros Hd. destruct req as [[|] f code|f t16 t24|data obs]; cbv beta iota delta [handle].
  - by rewrite authorize_get.
  - by rewrite authorize_post.
  - destruct (token_stores st f t16 t24) as (_ & [->| ->] & _); [done|].
    apply lookup_insert_ne. exact Hd.
  - pose proof (smarthome_grant_stores st data obs) as Hgs.
    injection Hgs as _ Hrt Hac _. by rewrite ?Hrt, ?Hac.
Qed.

Lemma run_refresh_kept reqs st rt :
  Forall (fun req => ~ draws_refresh rt req) reqs ->
  refresh_tokens (run VALID_CLIENTS st reqs) !! rt = refresh_tokens st !! rt.
Proof.
  intros Hreqs. revert st.
  induction Hreqs as [|req reqs Hd _ IH]; intros st; [done|].
  unfold run in *. simpl. rewrite IH. by apply handle_refresh_kept.
Qed.


(** A token request whose client check fails is refused before any store is
    touched. *)
Lemma token_invalid_client st f t16 t24 :
  tf_grant_type f = Some "authorization_code" \/ tf_grant_type f = Some "refresh_token" ->
  ~ authenticated VALID_CLIENTS f ->
  token VALID_CLIENTS st f t16 t24 = (JsonError "invalid_client" 401, st).
Proof.
  unfold authenticated. intros Hg Ha. unfold token.
  destruct Hg as [Hg|Hg].
  - rewrite decide_True by done. by rewrite decide_True.
  - rewrite decide_False by (rewrite Hg; discriminate).
    rewrite decide_True by done. by rewrite decide_True.
Qed.

(** C1. A code issued by a login submission is exchanged successfully the
    first time it is presented with the client, the redirect target and the
    client secret it was issued for; the exchange removes it from the
    ledger, and every later exchange that presents it is refused: with
    [invalid_grant] (400) once the client check has passed, and never with
    tokens.  The requests served in between are arbitrary, as long as no
    login submission draws the same code again. *)
Theorem authorization_code_single_use
    (st : state) (login : authorize_fields) (c : string)
    (between : list request) (ex : token_fields) (t16 t24 : string) :
  Forall (fun req => ~ issues c req /\ ~ presents c req) between ->
  tf_grant_type ex = Some "authorization_code" ->
  tf_code ex = Some c ->
  tf_client_id ex = af_client_id login ->
  tf_redirect_uri ex = af_redirect_uri login ->
  authenticated VALID_CLIENTS ex ->
  let issued := (authorize VALID_CLIENTS st POST login c).2 in
  let exchange1 := token VALID_CLIENTS (run VALID_CLIENTS issued between) ex t16 t24 in
  exchange1.1 = JsonToken t16 "Bearer" 3600 (Some t24) /\
  auth_codes exchange1.2 !! c = None /\
  forall (later : list request) (again : token_fields) (u16 u24 : string),
    Forall (fun req => ~ issues c req) later ->
    tf_grant_type again = Some "authorization_code" ->
    tf_code again = Some c ->
    let exchange2 := token VALID_CLIENTS (run VALID_CLIENTS exchange1.2 later) again u16 u24 in
    (authenticated VALID_CLIENTS again -> exchange2.1 = JsonError "invalid_grant" 400) /\
    (exchange2.1 = JsonError "invalid_client" 401 \/
     exchange2.1 = JsonError "invalid_grant" 400).
Proof.
  intros Hbetween Hg Hc Hid Huri Ha issued exchange1.
  assert (Hstored : auth_codes (run VALID_CLIENTS issued between) !! c
                    = Some (tf_client_id ex, tf_redirect_uri ex)).
  { rewrite run_code_kept by done. subst issued.
    rewrite authorize_post. simpl. rewrite lookup_insert_eq. by rewrite Hid, Huri. }
  assert (Hgone : auth_codes exchange1.2 !! c = None).
  { subst exchange1. rewrite (token_code_ok _ _ _ _ c) by done.
    simpl. apply lookup_delete_eq. }
  split; [|split; [exact Hgone|]].
  - subst exchange1. by rewrite (token_code_ok _ _ _ _ c).
  - intros later again u16 u24 Hlater Hg' Hc' exchange2.
    assert (Habsent : py_get (auth_codes (run VALID_CLIENTS exchange1.2 later))
                        (tf_code again) = None).
    { rewrite Hc'. simpl. by apply run_code_absent. }
    split.
    + intros Ha'. by apply token_code_absent.
    + by apply token_code_absent_any.
Qed.

(** C9. An exchange that passes the client check but presents a client or a
    redirect target other than the stored one is refused with
    [invalid_grant] (400) after the code has been popped: the code is gone
    from the ledger, the token stores are untouched, and a later exchange
    of the same code with the stored client and redirect target is refused
    with [invalid_grant] too. *)
Theorem mismatched_exchange_consumes_code
    (st : state) (f : token_fields) (t16 t24 c : string)
    (stored_client stored_uri : option string) :
  tf_grant_type f = Some "authorization_code" ->
  authenticated VALID_CLIENTS f ->
  tf_code f = Some c ->
  auth_codes st !! c = Some (stored_client, stored_uri) ->
  stored_client <> tf_client_id f \/ stored_uri <> tf_redirect_uri f ->
  let failed := token VALID_CLIENTS st f t16 t24 in
  failed.1 = JsonError "invalid_grant" 400 /\
  auth_codes failed.2 = delete c (auth_codes st) /\
  access_tokens failed.2 = access_tokens st /\
  refresh_tokens failed.2 = refresh_tokens st /\
  forall (later : list request) (retry : token_fields) (u16 u24 : string),
    Forall (fun req => ~ issues c req) later ->
    tf_grant_type retry = Some "authorization_code" ->
    tf_code retry = Some c ->
    tf_client_id retry = stored_client ->
    tf_redirect_uri retry = stored_uri ->
    authenticated VALID_CLIENTS retry ->
    (token VALID_CLIENTS (run VALID_CLIENTS failed.2 later) retry u16 u24).1
      = JsonError "invalid_grant" 400.
Proof.
  intros Hg Ha Hc Hs Hne failed. subst failed.
  rewrite (token_code_mismatch _ _ _ _ c stored_client stored_uri) by done.
  simpl. repeat split.
  intros later retry u16 u24 Hlater Hg' Hc' _ _ Ha'.
  apply token_code_absent; [done..|].
  rewrite Hc'. simpl. apply run_code_absent; [done|].
  simpl. apply lookup_delete_eq.
Qed.

(** C5. A refresh that passes the client check and presents a refresh token
    bound to the presented client answers with a new access token, type
    Bearer, 3600 seconds and no refresh token; the access token is stored
    against that client, the refresh-token store and the code ledger are
    unchanged, both maps are written to the file, and the same refresh
    succeeds again after any further requests, as long as no token request
    draws the same string as its 24-byte token. *)
Theorem refresh_keeps_refresh_token
    (st : state) (f : token_fields) (rt t16 t24 : string) :
  tf_grant_type f = Some "refresh_token" ->
  authenticated VALID_CLIENTS f ->
  tf_refresh_token f = Some rt ->
  refresh_tokens st !! rt = Some (tf_client_id f) ->
  let refreshed := token VALID_CLIENTS st f t16 t24 in
  refreshed.1 = JsonToken t16 "Bearer" 3600 None /\
  access_tokens refreshed.2 = <[t16 := tf_client_id f]> (access_tokens st) /\
  refresh_tokens refreshed.2 = refresh_tokens st /\
  auth_codes refreshed.2 = auth_codes st /\
  tokens_file refreshed.2 = Some (access_tokens refreshed.2, refresh_tokens st) /\
  forall (later : list request) (u16 u24 : string),
    Forall (fun req => ~ draws_refresh rt req) later ->
    let again := token VALID_CLIENTS (run VALID_CLIENTS refreshed.2 later) f u16 u24 in
    again.1 = JsonToken u16 "Bearer" 3600 None /\
    refresh_tokens again.2 !! rt = Some (tf_client_id f).
Proof.
  intros Hg Ha Hrt Hbound refreshed.
  assert (Hflat : forall s, refresh_tokens s !! rt = Some (tf_client_id f) ->
            py_get_flat (refresh_tokens s) (tf_refresh_token f) = tf_client_id f).
  { intros s Hs. unfold py_get_flat. rewrite Hrt. simpl. by rewrite Hs. }
  subst refreshed. rewrite token_refresh_ok by auto. simpl.
  repeat split.
  - rewrite token_refresh_ok; [done..|].
    apply Hflat. by rewrite run_refresh_kept.
  - rewrite token_refresh_ok; [|done..|].
    + simpl. by rewrite run_refresh_kept.
    + apply Hflat. by rewrite run_refresh_kept.
Qed.

(** C6, as amended. The access token of a successful exchange is the
    16-byte draw of the random source, and it is stored against the
    presented client; when the draw is not yet a key of the access-token
    store, it differs from every token stored before and the store grows by
    one entry.  Nothing in the handler compares the draw with the store. *)
Theorem minted_access_token_is_the_draw
    (st : state) (f : token_fields) (t16 t24 : string)
    (a ty : string) (e : Z) (r : option string) :
  (token VALID_CLIENTS st f t16 t24).1 = JsonToken a ty e r ->
  let st' := (token VALID_CLIENTS st f t16 t24).2 in
  a = t16 /\
  access_tokens st' = <[t16 := tf_client_id f]> (access_tokens st) /\
  (access_tokens st !! t16 = None ->
     (forall old, is_Some (access_tokens st !! old) -> a <> old) /\
     size (access_tokens st') = S (size (access_tokens st))).
Proof.
  unfold token.
  repeat case_decide; simpl; try discriminate.
  - destruct (tf_code f) as [c|]; simpl; [|discriminate].
    destruct (auth_codes st !! c) as [[sc su]|]; simpl; [|discriminate].
    repeat case_decide; simpl; try discriminate.
    intros [= <- _ _ _]. repeat split.
    + intros old [v Hv] ->. congruence.
    + by apply map_size_insert_None.
  - intros [= <- _ _ _]. repeat split.
    + intros old [v Hv] ->. congruence.
    + by apply map_size_insert_None.
Qed.

(** C10. A login submission stores the drawn code against the client and
    the redirect target of the form and changes nothing else; the Registry
    is never consulted (the result is the same with an empty Registry) and
    the username and the password play no part; when the form has a
    redirect target, the answer is a redirect to it with the code and the
    state appended, after [&] if the target contains [?] and after [?]
    otherwise. *)
Theorem login_submission_is_unchecked
    (st : state) (f : authorize_fields) (code : string) :
  let submitted := authorize VALID_CLIENTS st POST f code in
  submitted.2 =
    with_auth_codes st (<[code := (af_client_id f, af_redirect_uri f)]> (auth_codes st)) /\
  auth_codes submitted.2 !! code = Some (af_client_id f, af_redirect_uri f) /\
  submitted = authorize ∅ st POST f code /\
  (forall username password,
     authorize VALID_CLIENTS st POST
       (AuthorizeFields (af_client_id f) (af_redirect_uri f) (af_state f)
                        username password) code = submitted) /\
  (forall redirect_uri, af_redirect_uri f = Some redirect_uri ->
     submitted.1 =
       Redirect (redirect_uri
                 +:+ (if contains_char "?"%char redirect_uri then "&" else "?")
                 +:+ "code=" +:+ code +:+ "&state=" +:+ default "" (af_state f))).
Proof.
  intros submitted. subst submitted. rewrite authorize_post.
  repeat split.
  - simpl. apply lookup_insert_eq.
  - intros redirect_uri Huri. simpl. by rewrite Huri.
Qed.

End Grant.

(** ** The trigger debouncer *)

Section Bridge.

Local Open Scope Q_scope.

(** Inside the cooldown: nothing is sent and [last_trigger_time] stays. *)
Lemma trigger_jenkins_suppressed st action t o :
  t - last_trigger_time st < MIN_INTERVAL ->
  trigger_jenkins st action t o =
    (false, emit LockRelease (emit (Stdout DuplicateIgnored) (emit LockAcquire st))).
Proof.
  intros Hlt. unfold trigger_jenkins. simpl.
  destruct (Qlt_le_dec _ _) as [_|Hge]; [reflexivity|].
  exfalso. apply (Qlt_not_le _ _ Hlt Hge).
Qed.

(** Outside the cooldown: [last_trigger_time] is set, then the POST is made,
    then the lock is released. *)
Lemma trigger_jenkins_forwarded st action t o :
  MIN_INTERVAL <= t - last_trigger_time st ->
  trigger_jenkins st action t o =
    (match o with
     | Responded status_code => bool_decide (status_code = 200%Z)
     | RequestException => false
     end,
     emit LockRelease
       (match o with
        | Responded _ => fun s => s
        | RequestException => emit (Stdout TriggerFailed)
        end
          (emit (HttpPost t action)
             (emit (Stdout (SendingRequest action))
                (emit (CooldownWrite t)
                   (with_last_trigger_time (emit LockAcquire st) t)))))).
Proof.
  intros Hge. unfold trigger_jenkins. simpl.
  destruct (Qlt_le_dec _ _) as [Hlt|_].
  - exfalso. apply (Qlt_not_le _ _ Hlt Hge).
  - by destruct o.
Qed.

Lemma cooldown_cases (st : state) (t : Q) :
  t - last_trigger_time st < MIN_INTERVAL \/ MIN_INTERVAL <= t - last_trigger_time st.
Proof. destruct (Qlt_le_dec (t - last_trigger_time st) MIN_INTERVAL); auto. Qed.

Lemma trigger_jenkins_device_states st action t o :
  device_states (trigger_jenkins st action t o).2 = device_states st.
Proof.
  destruct (cooldown_cases st t) as [H|H].
  - by rewrite trigger_jenkins_suppressed.
  - rewrite trigger_jenkins_forwarded by done. by destruct o.
Qed.

Lemma separated_lookup ts i j ti tj :
  separated ts -> (i < j)%nat ->
  ts !! i = Some ti -> ts !! j = Some tj ->
  tj + MIN_INTERVAL <= ti.
Proof.
  revert i j. induction ts as [|t earlier IH]; intros i j Hsep Hij Hi Hj; [done|].
  destruct Hsep as [Hall Hsep].
  destruct j as [|j']; [lia|]. simpl in Hj.
  destruct i as [|i']; simpl in Hi.
  - injection Hi as ->. by apply (proj1 (Forall_lookup _ _) Hall j').
  - apply (IH i' j'); [done|lia|done..].
Qed.

Lemma trigger_jenkins_suppressed_log st action t o :
  t - last_trigger_time st < MIN_INTERVAL ->
  post_times (effects (trigger_jenkins st action t o).2) = post_times (effects st) /\
  last_trigger_time (trigger_jenkins st action t o).2 = last_trigger_time st.
Proof. intros H. by rewrite trigger_jenkins_suppressed. Qed.

Lemma trigger_jenkins_forwarded_log st action t o :
  MIN_INTERVAL <= t - last_trigger_time st ->
  post_times (effects (trigger_jenkins st action t o).2) = t :: post_times (effects st) /\
  last_trigger_time (trigger_jenkins st action t o).2 = t.
Proof. intros H. rewrite trigger_jenkins_forwarded by done. by destruct o. Qed.

Lemma trigger_jenkins_inv st action t o :
  cooldown_inv st -> cooldown_inv (trigger_jenkins st action t o).2.
Proof.
  intros [Hsep Hle]. unfold cooldown_inv.
  destruct (cooldown_cases st t) as [H|H].
  - destruct (trigger_jenkins_suppressed_log st action t o H) as [-> ->]. done.
  - destruct (trigger_jenkins_forwarded_log st action t o H) as [-> ->].
    simpl. repeat split.
    + eapply Forall_impl; [exact Hle|]. simpl. intros u Hu.
      unfold MIN_INTERVAL in *. lra.
    + exact Hsep.
    + constructor; [lra|].
      eapply Forall_impl; [exact Hle|]. simpl. intros u Hu.
      unfold MIN_INTERVAL in *. lra.
Qed.


(** ** The EXECUTE loops *)

Lemma execute_device_unfold st did onoff t o :
  execute_device st did onoff t o =
    let called :=
      trigger_jenkins
        (emit (DeviceWrite did onoff)
           (with_device_states st (<[did := onoff]> (device_states st))))
        (if onoff then "apply" else "destroy")%string t o in
    (ExecuteResult [did] (if called.1 then "SUCCESS" else "ERROR")%string onoff true,
     called.2).
Proof. unfold execute_device. by destruct (trigger_jenkins _ _ _ _). Qed.

Lemma execute_device_device_states st did onoff t o :
  device_states (execute_device st did onoff t o).2 = <[did := onoff]> (device_states st).
Proof.
  rewrite execute_device_unfold. simpl. by rewrite trigger_jenkins_device_states.
Qed.

Lemma execute_device_inv st did onoff t o :
  cooldown_inv st -> cooldown_inv (execute_device st did onoff t o).2.
Proof.
  intros Hinv. rewrite execute_device_unfold. simpl.
  by apply trigger_jenkins_inv.
Qed.

Lemma execute_device_result st did onoff t o :
  let r := (execute_device st did onoff t o).1 in
  ids r = [did] /\ states_on r = onoff /\ states_online r = true /\
  (status r = "SUCCESS" \/ status r = "ERROR")%string.
Proof.
  rewrite execute_device_unfold. simpl.
  destruct (trigger_jenkins _ _ _ _).1; auto.
Qed.

Lemma execute_targets_app ts1 ts2 obs acc :
  execute_targets (ts1 ++ ts2) obs acc = execute_targets ts2 obs (execute_targets ts1 obs acc).
Proof.
  revert acc. induction ts1 as [|[did onoff] rest IH]; intros acc; simpl; [done|].
  destruct (obs _) as [t o]. destruct (execute_device _ _ _ _ _) as [r st'].
  apply IH.
Qed.

Lemma execute_devices_targets onoff devs obs acc :
  execute_devices onoff devs obs acc =
    execute_targets (map (fun d => (d_id d, onoff)) devs) obs acc.
Proof.
  revert acc. induction devs as [|dev rest IH]; intros acc; simpl; [done|].
  destruct (obs _) as [t o]. destruct (execute_device _ _ _ _ _) as [r st'].
  apply IH.
Qed.

Lemma execute_commands_targets cmds obs acc :
  execute_commands cmds obs acc = execute_targets (targets cmds) obs acc.
Proof.
  revert acc. induction cmds as [|cmd rest IH]; intros acc; simpl; [done|].
  rewrite IH, execute_targets_app. f_equal. apply execute_devices_targets.
Qed.

(** What a property of the state needs in order to survive the loop. *)
Lemma execute_targets_state_ind (P : state -> Prop) ts obs acc :
  (forall st did onoff t o, P st -> P (execute_device st did onoff t o).2) ->
  P acc.2 -> P (execute_targets ts obs acc).2.
Proof.
  intros Hstep. revert acc.
  induction ts as [|[did onoff] rest IH]; intros acc Hacc; simpl; [done|].
  destruct (obs _) as [t o].
  pose proof (Hstep acc.2 did onoff t o Hacc) as Hnext.
  destruct (execute_device _ _ _ _ _) as [r st'].
  by apply IH.
Qed.

Lemma execute_targets_device_states ts obs acc :
  device_states (execute_targets ts obs acc).2 = assign_all ts (device_states acc.2).
Proof.
  revert acc. induction ts as [|[did onoff] rest IH]; intros acc; simpl; [done|].
  destruct (obs _) as [t o].
  pose proof (execute_device_device_states acc.2 did onoff t o) as Hd.
  destruct (execute_device _ _ _ _ _) as [r st'].
  rewrite IH. simpl in *. by rewrite Hd.
Qed.

Lemma execute_targets_results ts obs acc :
  map (fun r => (ids r, states_on r, states_online r)) (execute_targets ts obs acc).1 =
    (map (fun r => (ids r, states_on r, states_online r)) acc.1
     ++ map (fun t : string * bool => ([t.1], t.2, true)) ts)%list.
Proof.
  revert acc. induction ts as [|[did onoff] rest IH]; intros acc; simpl.
  - by rewrite app_nil_r.
  - destruct (obs _) as [t o].
    pose proof (execute_device_result acc.2 did onoff t o) as (Hi & Hon & Hol & _).
    destruct (execute_device _ _ _ _ _) as [r st'].
    rewrite IH. simpl in *. rewrite map_app. simpl.
    rewrite Hi, Hon, Hol. by rewrite <- app_assoc.
Qed.

Lemma execute_targets_statuses ts obs acc :
  Forall (fun r => status r = "SUCCESS" \/ status r = "ERROR")%string acc.1 ->
  Forall (fun r => status r = "SUCCESS" \/ status r = "ERROR")%string
         (execute_targets ts obs acc).1.
Proof.
  revert acc. induction ts as [|[did onoff] rest IH]; intros acc Hacc; simpl; [done|].
  destruct (obs _) as [t o].
  pose proof (execute_device_result acc.2 did onoff t o) as (_ & _ & _ & Hs).
  destruct (execute_device _ _ _ _ _) as [r st'].
  apply IH. simpl in *. apply Forall_app. split; [done|]. by constructor.
Qed.

Lemma assign_all_other ts (d : gmap string bool) did :
  ~ In did (map fst ts) -> assign_all ts d !! did = d !! did.
Proof.
  revert d. induction ts as [|[did' onoff] rest IH]; intros d Hnot; [done|].
  unfold assign_all in *. simpl in *. rewrite IH by tauto.
  apply lookup_insert_ne. tauto.
Qed.

(** ** What each endpoint leaves alone *)

Lemma token_bridge_fields VALID_CLIENTS st f t16 t24 :
  bridge_fields (token VALID_CLIENTS st f t16 t24).2 = bridge_fields st.
Proof.
  unfold token. repeat case_decide; try reflexivity.
  destruct (tf_code f) as [c|]; simpl; [|reflexivity].
  destruct (auth_codes st !! c) as [[sc su]|]; simpl; [|reflexivity].
  repeat case_decide; reflexivity.
Qed.

Lemma authorize_bridge_fields VALID_CLIENTS st method f code :
  bridge_fields (authorize VALID_CLIENTS st method f code).2 = bridge_fields st.
Proof.
  destruct method.
  - by rewrite authorize_get.
  - by rewrite authorize_post.
Qed.

Lemma cooldown_inv_bridge_fields st st' :
  bridge_fields st' = bridge_fields st -> cooldown_inv st -> cooldown_inv st'.
Proof. unfold cooldown_inv. intros [= _ -> ->]. done. Qed.

Lemma smarthome_inv st data obs :
  cooldown_inv st -> cooldown_inv (smarthome st data obs).2.
Proof.
  intros Hinv. unfold smarthome. repeat case_decide; try done.
  rewrite execute_commands_targets.
  pose proof (execute_targets_state_ind cooldown_inv
                (targets (p_commands (input_payload data))) obs ([], st)
                execute_device_inv Hinv) as Hloop.
  by destruct (execute_targets _ _ _).
Qed.

Lemma handle_inv VALID_CLIENTS st req :
  cooldown_inv st -> cooldown_inv (handle VALID_CLIENTS st req).2.
Proof.
  intros Hinv. destruct req as [method f code|f t16 t24|data obs];
    cbv beta iota delta [handle].
  - eapply cooldown_inv_bridge_fields; [apply authorize_bridge_fields|done].
  - eapply cooldown_inv_bridge_fields; [apply token_bridge_fields|done].
  - by apply smarthome_inv.
Qed.

Lemma run_inv VALID_CLIENTS reqs st :
  cooldown_inv st -> cooldown_inv (run VALID_CLIENTS st reqs).
Proof.
  revert st. induction reqs as [|req rest IH]; intros st Hinv; [done|].
  apply IH. by apply handle_inv.
Qed.

Lemma initial_state_inv file : cooldown_inv (initial_state file).
Proof.
  unfold initial_state. destruct (load_tokens_from_file file) as [a r].
  split; simpl; constructor.
Qed.

Lemma smarthome_device_kept st data obs did :
  ~ executes_on did (Smarthome data obs) ->
  device_states (smarthome st data obs).2 !! did = device_states st !! did.
Proof.
  intros Hnot. unfold smarthome. repeat case_decide; try done.
  rewrite execute_commands_targets.
  pose proof (execute_targets_device_states
                (targets (p_commands (input_payload data))) obs ([], st)) as Hd.
  destruct (execute_targets _ _ _) as [results st']. simpl in *.
  rewrite Hd. apply assign_all_other. tauto.
Qed.

Lemma handle_device_kept VALID_CLIENTS st req did :
  ~ executes_on did req ->
  device_states (handle VALID_CLIENTS st req).2 !! did = device_states st !! did.
Proof.
  intros Hnot. destruct req as [method f code|f t16 t24|data obs];
    cbv beta iota delta [handle].
  - pose proof (authorize_bridge_fields VALID_CLIENTS st method f code) as [= -> _ _]. done.
  - pose proof (token_bridge_fields VALID_CLIENTS st f t16 t24) as [= -> _ _]. done.
  - by apply smarthome_device_kept.
Qed.

Lemma run_device_kept VALID_CLIENTS reqs st did :
  Forall (fun req => ~ executes_on did req) reqs ->
  device_states (run VALID_CLIENTS st reqs) !! did = device_states st !! did.
Proof.
  intros Hreqs. revert st.
  induction Hreqs as [|req rest Hreq _ IH]; intros st; [done|].
  unfold run in *. simpl. rewrite IH. by apply handle_device_kept.
Qed.

(** ** QUERY *)

Lemma query_fold_out st devs (acc : gmap string query_result) did :
  ~ In did (map d_id devs) ->
  foldl (query_device st) acc devs !! did = acc !! did.
Proof.
  revert acc. induction devs as [|d rest IH]; intros acc Hnot; simpl in *; [done|].
  rewrite IH by tauto. unfold query_device.
  apply lookup_insert_ne. tauto.
Qed.

Lemma query_fold_in st devs (acc : gmap string query_result) did :
  In did (map d_id devs) ->
  foldl (query_device st) acc devs !! did =
    Some (QueryResult true (default false (device_states st !! did))).
Proof.
  revert acc. induction devs as [|d rest IH]; intros acc Hin; simpl in *; [done|].
  destruct (decide (did ∈ map d_id rest)) as [Hrest|Hrest].
  - apply IH. by apply list_elem_of_In.
  - rewrite query_fold_out by (by rewrite <- list_elem_of_In).
    destruct Hin as [<-|Hin]; [|by apply list_elem_of_In in Hin].
    unfold query_device. apply lookup_insert_eq.
Qed.

(** ** The claims about the bridge *)

(** C8, as amended. When the cooldown test passes, [last_trigger_time] is
    set to the clock reading before the POST is made, and both happen
    between the acquisition and the release of the lock: the lock is
    released only after the POST has answered or failed, so it is held
    across the outbound call. *)
Theorem trigger_posts_under_the_lock
    (st : state) (action : string) (t : Q) (o : post_outcome) :
  MIN_INTERVAL <= t - last_trigger_time st ->
  let st' := (trigger_jenkins st action t o).2 in
  last_trigger_time st' = t /\
  exists steps,
    effects st' = (steps ++ effects st)%list /\
    rev steps =
      ([LockAcquire; CooldownWrite t; Stdout (SendingRequest action); HttpPost t action]
       ++ match o with
          | Responded _ => []
          | RequestException => [Stdout TriggerFailed]
          end
       ++ [LockRelease])%list /\
    posts_under_lock false (rev steps) = [true].
Proof.
  intros Hge st'. subst st'. rewrite trigger_jenkins_forwarded by done.
  destruct o as [status_code|]; simpl.
  - split; [reflexivity|].
    exists [LockRelease; HttpPost t action; Stdout (SendingRequest action);
            CooldownWrite t; LockAcquire].
    repeat split.
  - split; [reflexivity|].
    exists [LockRelease; Stdout TriggerFailed; HttpPost t action;
            Stdout (SendingRequest action); CooldownWrite t; LockAcquire].
    repeat split.
Qed.

(** C3, as amended. After any sequence of requests served from the initial
    state and two further device executions: (1) any two POSTs ever made
    are at least the minimum interval apart, so of two calls less than
    10 seconds apart at most one is forwarded; (2) in particular the two
    executions are not both forwarded when the second comes less than
    10 seconds after the first; (3) a call inside the cooldown makes no
    POST and leaves [last_trigger_time] alone, its result carries status
    ERROR and the requested value, and the device state holds the requested
    value; (4) two calls at least 10 seconds apart are both forwarded when
    the first of them is at least 10 seconds after [last_trigger_time]. *)
Theorem trigger_debounce
    (VALID_CLIENTS : gmap string string)
    (file : option (gmap string (option string) * gmap string (option string)))
    (reqs : list request)
    (did1 did2 : string) (on1 on2 : bool) (t1 t2 : Q) (o1 o2 : post_outcome) :
  let st := run VALID_CLIENTS (initial_state file) reqs in
  let call1 := execute_device st did1 on1 t1 o1 in
  let call2 := execute_device call1.2 did2 on2 t2 o2 in
  (forall (i j : nat) (ti tj : Q),
     (i < j)%nat ->
     post_times (effects call2.2) !! i = Some ti ->
     post_times (effects call2.2) !! j = Some tj ->
     tj + MIN_INTERVAL <= ti) /\
  (t2 - t1 < MIN_INTERVAL ->
     post_times (effects call2.2) <> t2 :: t1 :: post_times (effects st)) /\
  (t2 - last_trigger_time call1.2 < MIN_INTERVAL ->
     status call2.1 = "ERROR"%string /\
     states_on call2.1 = on2 /\
     device_states call2.2 !! did2 = Some on2 /\
     post_times (effects call2.2) = post_times (effects call1.2) /\
     last_trigger_time call2.2 = last_trigger_time call1.2) /\
  (MIN_INTERVAL <= t1 - last_trigger_time st ->
   MIN_INTERVAL <= t2 - t1 ->
     post_times (effects call2.2) = t2 :: t1 :: post_times (effects st)).
Proof.
  intros st call1 call2.
  assert (Hinv : cooldown_inv call2.2).
  { subst call2 call1 st.
    do 2 apply execute_device_inv. apply run_inv, initial_state_inv. }
  assert (Hpairs : forall (i j : nat) (ti tj : Q),
             (i < j)%nat ->
             post_times (effects call2.2) !! i = Some ti ->
             post_times (effects call2.2) !! j = Some tj ->
             tj + MIN_INTERVAL <= ti).
  { intros i j ti tj. apply separated_lookup, Hinv. }
  split; [exact Hpairs|]. split; [|split].
  - intros Hlt Hboth.
    pose proof (Hpairs 0%nat 1%nat t2 t1) as Hsep.
    rewrite Hboth in Hsep. specialize (Hsep ltac:(lia) eq_refl eq_refl).
    unfold MIN_INTERVAL in *. lra.
  - intros Hlt. subst call2. rewrite execute_device_unfold. simpl.
    rewrite trigger_jenkins_suppressed by exact Hlt. simpl.
    repeat split. apply lookup_insert_eq.
  - intros H1 H2. subst call2 call1.
    rewrite (execute_device_unfold _ did2). simpl.
    rewrite (execute_device_unfold st did1). simpl.
    destruct (trigger_jenkins_forwarded_log
                (emit (DeviceWrite did1 on1)
                   (with_device_states st (<[did1 := on1]> (device_states st))))
                (if on1 then "apply" else "destroy")%string t1 o1 H1) as [Hp1 Hl1].
    set (s1 := (trigger_jenkins _ _ t1 o1).2) in *.
    destruct (trigger_jenkins_forwarded_log
                (emit (DeviceWrite did2 on2)
                   (with_device_states s1 (<[did2 := on2]> (device_states s1))))
                (if on2 then "apply" else "destroy")%string t2 o2) as [Hp2 Hl2].
    { simpl. by rewrite Hl1. }
    rewrite Hp2. simpl. by rewrite Hp1.
Qed.

(** C4. An EXECUTE request runs [execute_device] on every device of every
    command, in order: each result names its device, reports the value its
    command requests ([false] when [params] has no [on]) and a status that
    is SUCCESS or ERROR, and afterwards [device_states] holds the requested
    values.  For one device: the state is written first, unconditionally;
    the POST is made exactly when the cooldown test passes; the status is
    SUCCESS exactly when the POST was made and answered 200. *)
Theorem execute_applies_requested_state
    (st : state) (data : smarthome_body) (obs : nat -> Q * post_outcome)
    (did : string) (onoff : bool) (t : Q) (o : post_outcome) :
  intent data = "action.devices.EXECUTE"%string ->
  let served := smarthome st data obs in
  let ts := targets (p_commands (input_payload data)) in
  let one := execute_device st did onoff t o in
  served = (let '(results, st') := execute_targets ts obs ([], st) in
            (JsonExecute (requestId data) results, st')) /\
  (exists results,
     served.1 = JsonExecute (requestId data) results /\
     map (fun r => (ids r, states_on r, states_online r)) results =
       map (fun t : string * bool => ([t.1], t.2, true)) ts /\
     Forall (fun r => status r = "SUCCESS" \/ status r = "ERROR")%string results) /\
  device_states served.2 = assign_all ts (device_states st) /\
  (forall cmd, params (execution_head cmd) !! "on"%string = None -> requested_on cmd = false) /\
  device_states one.2 = <[did := onoff]> (device_states st) /\
  ids one.1 = [did] /\
  states_on one.1 = onoff /\
  (status one.1 = "SUCCESS"%string <->
     MIN_INTERVAL <= t - last_trigger_time st /\ o = Responded 200) /\
  (status one.1 = "SUCCESS" \/ status one.1 = "ERROR")%string /\
  exists steps,
    effects one.2 = (steps ++ DeviceWrite did onoff :: effects st)%list /\
    (In (HttpPost t (if onoff then "apply" else "destroy")%string) steps <->
       MIN_INTERVAL <= t - last_trigger_time st).
Proof.
  intros Hintent served ts one.
  assert (Hserved : served =
            (let '(results, st') := execute_targets ts obs ([], st) in
             (JsonExecute (requestId data) results, st'))).
  { subst served ts. unfold smarthome. rewrite Hintent.
    rewrite !decide_False by discriminate. rewrite decide_True by done.
    by rewrite execute_commands_targets. }
  split; [exact Hserved|].
  pose proof (execute_targets_results ts obs ([], st)) as Hres.
  pose proof (execute_targets_statuses ts obs ([], st) ltac:(constructor)) as Hst.
  pose proof (execute_targets_device_states ts obs ([], st)) as Hdev.
  rewrite Hserved. destruct (execute_targets ts obs ([], st)) as [results st'].
  simpl in Hres, Hst, Hdev.
  split; [by exists results|]. split; [exact Hdev|].
  split; [intros cmd Hnone; unfold requested_on; by rewrite Hnone|].
  split; [apply execute_device_device_states|].
  destruct (execute_device_result st did onoff t o) as (Hids & Hon & _ & Hstat).
  split; [exact Hids|]. split; [exact Hon|].
  subst one. rewrite execute_device_unfold. simpl.
  destruct (cooldown_cases st t) as [Hlt|Hge].
  - rewrite trigger_jenkins_suppressed by exact Hlt. simpl.
    split; [|split].
    + split; [discriminate|]. intros [Hge _].
      exfalso. apply (Qlt_not_le _ _ Hlt Hge).
    + by right.
    + exists [LockRelease; Stdout DuplicateIgnored; LockAcquire].
      split; [reflexivity|]. split.
      * simpl. intros [H|[H|[H|[]]]]; discriminate.
      * intros Hge. exfalso. apply (Qlt_not_le _ _ Hlt Hge).
  - rewrite trigger_jenkins_forwarded by exact Hge.
    destruct o as [status_code|]; simpl.
    + split; [|split].
      * case_bool_decide as Hcode; [subst status_code|].
        -- by split.
        -- split; [discriminate|]. intros [_ [= ?]]. done.
      * case_bool_decide; auto.
      * exists [LockRelease;
                HttpPost t (if onoff then "apply" else "destroy")%string;
                Stdout (SendingRequest (if onoff then "apply" else "destroy")%string);
                CooldownWrite t; LockAcquire].
        split; [reflexivity|]. split; [done|]. intros _. simpl. auto.
    + split; [|split].
      * split; [discriminate|]. intros [_ [=]].
      * by right.
      * exists [LockRelease; Stdout TriggerFailed;
                HttpPost t (if onoff then "apply" else "destroy")%string;
                Stdout (SendingRequest (if onoff then "apply" else "destroy")%string);
                CooldownWrite t; LockAcquire].
        split; [reflexivity|]. split; [done|]. intros _. simpl. auto.
Qed.

(** C7. A QUERY request leaves the state as it is and answers, for every
    requested device id, online and the value [device_states] holds for
    it, [false] when it holds none; ids that were not requested are not in
    the answer.  After any sequence of requests from the initial state in
    which no EXECUTE names the id, that value is [false]. *)
Theorem query_reports_device_states
    (st : state) (data : smarthome_body) (obs : nat -> Q * post_outcome) :
  intent data = "action.devices.QUERY"%string ->
  let served := smarthome st data obs in
  let requested := map d_id (p_devices (input_payload data)) in
  served.2 = st /\
  exists resp,
    served.1 = JsonQuery (requestId data) resp /\
    (forall did, In did requested ->
       resp !! did = Some (QueryResult true (default false (device_states st !! did)))) /\
    (forall did, ~ In did requested -> resp !! did = None) /\
    (forall did, In did requested -> device_states st !! did = None ->
       resp !! did = Some (QueryResult true false)) /\
    (forall VALID_CLIENTS file reqs did,
       st = run VALID_CLIENTS (initial_state file) reqs ->
       Forall (fun req => ~ executes_on did req) reqs ->
       In did requested ->
       resp !! did = Some (QueryResult true false)).
Proof.
  intros Hintent served requested. subst served. unfold smarthome.
  rewrite Hintent. rewrite decide_False by discriminate. rewrite decide_True by done.
  simpl. split; [reflexivity|].
  eexists. split; [reflexivity|]. repeat split.
  - intros did Hin. by apply query_fold_in.
  - intros did Hnot. by rewrite query_fold_out.
  - intros did Hin Hnone. rewrite query_fold_in by done. by rewrite Hnone.
  - intros VALID_CLIENTS file reqs did -> Hreqs Hin.
    rewrite query_fold_in by done.
    rewrite run_device_kept by done.
    unfold initial_state. destruct (load_tokens_from_file file) as [a r]. simpl.
    destruct (decide ("jenkins_job"%string = did)) as [<-|Hne].
    + by rewrite lookup_singleton_eq.
    + by rewrite lookup_singleton_ne.
Qed.

End Bridge.

(** ** The claims on concrete requests *)

(** C2. With a Registry that knows only [google-home], a code issued to the
    unknown client [ghost] is exchanged for tokens by a request that names
    [ghost] and sends no [client_secret], and a refresh request that sends
    nothing but its grant type is given an access token: in both,
    [VALID_CLIENTS.get(client_id)] and [client_secret] are both [None], so
    the test for [invalid_client] does not fire. *)
Theorem token_accepts_unknown_client_without_secret :
  let issued := (authorize example_clients (initial_state None) POST login_ghost code_1).2 in
  let exchanged := token example_clients issued (exchange_ghost code_1) access_2 refresh_2 in
  let refreshed := token example_clients (initial_state None) refresh_bare access_2 refresh_2 in
  example_clients !! "ghost" = None /\
  tf_client_secret (exchange_ghost code_1) = None /\
  exchanged.1 = JsonToken access_2 "Bearer" 3600 (Some refresh_2) /\
  access_tokens exchanged.2 !! access_2 = Some (Some "ghost") /\
  refresh_tokens exchanged.2 !! refresh_2 = Some (Some "ghost") /\
  refreshed.1 = JsonToken access_2 "Bearer" 3600 None /\
  access_tokens refreshed.2 !! access_2 = Some None.
Proof. vm_compute. repeat split. Qed.

(** C6 fails as stated: a refresh whose 16-byte draw is a token that the
    store already holds returns that token. *)
Lemma minted_access_token_may_collide :
  ~ (forall (VALID_CLIENTS : gmap string string) (st : state) (f : token_fields)
            (t16 t24 a ty : string) (e : Z) (r : option string),
       (token VALID_CLIENTS st f t16 t24).1 = JsonToken a ty e r ->
       access_tokens st !! a = None).
Proof.
  intros Hclaim.
  specialize (Hclaim example_clients (initial_state example_file)
                (refresh_google refresh_1) access_1 "unused" access_1 "Bearer" 3600%Z None).
  vm_compute in Hclaim. specialize (Hclaim eq_refl). discriminate Hclaim.
Qed.

(** C8 fails as stated: in a call that passes the cooldown test, the POST is
    made between the acquisition and the release of the lock. *)
Lemma post_is_made_with_the_lock_held :
  let st' := (trigger_jenkins (initial_state None) "apply" t_0 (Responded 200)).2 in
  rev (effects st') =
    [LockAcquire; CooldownWrite t_0; Stdout (SendingRequest "apply");
     HttpPost t_0 "apply"; LockRelease] /\
  posts_under_lock false (rev (effects st')) = [true].
Proof. vm_compute. split; reflexivity. Qed.

(** C3 fails as stated: of three calls at [t_0], [t_5] and [t_15], the second
    and the third are 10 seconds apart, and the second is not forwarded. *)
Lemma spaced_calls_not_both_forwarded :
  let served :=
    smarthome (initial_state None)
      (execute_body [turn true ["jenkins_job"; "lamp"; "fan"]]) obs_three_calls in
  (MIN_INTERVAL <= t_15 - t_5)%Q /\
  post_times (effects served.2) = [t_15; t_0] /\
  ~ In t_5 (post_times (effects served.2)) /\
  match served.1 with
  | JsonExecute _ results => map status results = ["SUCCESS"; "ERROR"; "SUCCESS"]
  | _ => False
  end.
Proof.
  vm_compute. repeat split.
  - discriminate.
  - intros [H|[H|[]]]; discriminate H.
Qed.

(** ** The theorems at concrete inputs *)

Lemma authorization_code_single_use_witness :
  let between :=
    [Token (refresh_google refresh_3) "a" "b";
     Smarthome (query_body ["jenkins_job"]) (obs_const 0 RequestException)] in
  let issued := (authorize example_clients (initial_state None) POST login_google code_1).2 in
  let exchange1 :=
    token example_clients (run example_clients issued between)
          (exchange_google code_1) access_2 refresh_2 in
  exchange1.1 = JsonToken access_2 "Bearer" 3600 (Some refresh_2) /\
  (token example_clients exchange1.2 (exchange_google code_1) access_3 refresh_3).1
    = JsonError "invalid_grant" 400.
Proof.
  intros between issued exchange1.
  destruct (authorization_code_single_use example_clients (initial_state None)
              login_google code_1 between (exchange_google code_1) access_2 refresh_2)
    as (Hfirst & _ & Hlater).
  - apply Forall_cons_2; [|apply Forall_cons_2; [|apply Forall_nil_2]];
      simpl; split; intros H; (exact H || discriminate H).
  - reflexivity.
  - reflexivity.
  - reflexivity.
  - reflexivity.
  - vm_compute. reflexivity.
  - split; [exact Hfirst|].
    pose proof (Hlater [] (exchange_google code_1) access_3 refresh_3
                  (Forall_nil_2 _) eq_refl eq_refl) as [Hgrant _].
    apply Hgrant. vm_compute. reflexivity.
Defined.

Lemma mismatched_exchange_consumes_code_witness :
  let issued := (authorize example_clients (initial_state None) POST login_google code_1).2 in
  let failed := token example_clients issued (exchange_wrong_uri code_1) access_2 refresh_2 in
  failed.1 = JsonError "invalid_grant" 400 /\
  auth_codes failed.2 !! code_1 = None /\
  (token example_clients failed.2 (exchange_google code_1) access_2 refresh_2).1
    = JsonError "invalid_grant" 400.
Proof.
  intros issued failed.
  destruct (mismatched_exchange_consumes_code example_clients issued
              (exchange_wrong_uri code_1) access_2 refresh_2 code_1
              (Some "google-home") (Some "https://oauth.example/cb"))
    as (Hresp & Hcodes & _ & _ & Hlater).
  - reflexivity.
  - vm_compute. reflexivity.
  - reflexivity.
  - vm_compute. reflexivity.
  - right. simpl. discriminate.
  - split; [exact Hresp|]. split.
    + fold failed in Hcodes. rewrite Hcodes. apply lookup_delete_eq.
    + apply (Hlater [] (exchange_google code_1) access_2 refresh_2).
      * apply Forall_nil_2.
      * reflexivity.
      * reflexivity.
      * reflexivity.
      * reflexivity.
      * vm_compute. reflexivity.
Defined.

Lemma refresh_keeps_refresh_token_witness :
  let st := initial_state example_file in
  let refreshed := token example_clients st (refresh_google refresh_1) access_2 "unused" in
  let later := [Token (refresh_google refresh_1) access_3 "unused";
                Token (refresh_google refresh_1) access_4 "unused"] in
  refreshed.1 = JsonToken access_2 "Bearer" 3600 None /\
  refresh_tokens refreshed.2 = refresh_tokens st /\
  (token example_clients (run example_clients refreshed.2 later)
         (refresh_google refresh_1) access_5 "unused").1
    = JsonToken access_5 "Bearer" 3600 None.
Proof.
  intros st refreshed later.
  destruct (refresh_keeps_refresh_token example_clients st
              (refresh_google refresh_1) refresh_1 access_2 "unused")
    as (Hresp & _ & Hsame & _ & _ & Hlater).
  - reflexivity.
  - vm_compute. reflexivity.
  - reflexivity.
  - vm_compute. reflexivity.
  - split; [exact Hresp|]. split; [exact Hsame|].
    apply (Hlater later access_5 "unused").
    apply Forall_cons_2; [|apply Forall_cons_2; [|apply Forall_nil_2]];
      simpl; intros H; discriminate H.
Defined.

Lemma minted_access_token_is_the_draw_witness :
  let st := initial_state example_file in
  let refreshed := token example_clients st (refresh_google refresh_1) access_2 "unused" in
  access_tokens refreshed.2 !! access_2 = Some (Some "google-home") /\
  size (access_tokens refreshed.2) = S (size (access_tokens st)).
Proof.
  intros st refreshed.
  destruct (minted_access_token_is_the_draw example_clients st
              (refresh_google refresh_1) access_2 "unused" access_2 "Bearer" 3600%Z None)
    as (_ & Hstore & Hfresh).
  - vm_compute. reflexivity.
  - split.
    + fold refreshed in Hstore. rewrite Hstore. apply lookup_insert_eq.
    + apply Hfresh. vm_compute. reflexivity.
Defined.

Lemma login_submission_is_unchecked_witness :
  let submitted := authorize example_clients (initial_state None) POST login_ghost code_1 in
  example_clients !! "ghost" = None /\
  auth_codes submitted.2 !! code_1
    = Some (Some "ghost", Some "https://oauth.example/cb?p=1") /\
  submitted.1 = Redirect "https://oauth.example/cb?p=1&code=q1W2e3R4t5Y&state=xyz".
Proof.
  intros submitted.
  destruct (login_submission_is_unchecked example_clients (initial_state None)
              login_ghost code_1) as (_ & Hstored & _ & _ & Hredirect).
  split; [vm_compute; reflexivity|]. split; [exact Hstored|].
  apply (Hredirect "https://oauth.example/cb?p=1"). reflexivity.
Defined.

Lemma trigger_posts_under_the_lock_witness :
  let st' := (trigger_jenkins (initial_state None) "destroy" t_0 RequestException).2 in
  last_trigger_time st' = t_0 /\
  exists steps,
    effects st' = steps /\
    posts_under_lock false (rev steps) = [true].
Proof.
  intros st'.
  destruct (trigger_posts_under_the_lock (initial_state None) "destroy" t_0 RequestException)
    as (Hlast & steps & Hsteps & _ & Hheld).
  - vm_compute. discriminate.
  - split; [exact Hlast|]. exists steps. split; [|exact Hheld].
    fold st' in Hsteps. rewrite Hsteps. apply app_nil_r.
Defined.

Lemma trigger_debounce_witness :
  let st := run example_clients (initial_state None)
              [Smarthome (execute_body [turn true ["jenkins_job"]])
                         (obs_const t_0 (Responded 200))] in
  let call1 := execute_device st "lamp" false t_5 (Responded 200) in
  let call2 := execute_device call1.2 "fan" true t_15 (Responded 200) in
  status call1.1 = "ERROR" /\
  device_states call1.2 !! "lamp" = Some false /\
  post_times (effects call2.2) = [t_15; t_0] /\
  (t_0 + MIN_INTERVAL <= t_15)%Q.
Proof.
  intros st call1 call2.
  destruct (trigger_debounce example_clients None
              [Smarthome (execute_body [turn true ["jenkins_job"]])
                         (obs_const t_0 (Responded 200))]
              "jenkins_job" "lamp" true false t_0 t_5 (Responded 200) (Responded 200))
    as (_ & _ & Hsuppressed & _).
  destruct Hsuppressed as (Hstatus & _ & Hdev & _ & _).
  { vm_compute. reflexivity. }
  destruct (trigger_debounce example_clients None
              [Smarthome (execute_body [turn true ["jenkins_job"]])
                         (obs_const t_0 (Responded 200))]
              "lamp" "fan" false true t_5 t_15 (Responded 200) (Responded 200))
    as (Hpairs & _ & _ & _).
  split; [vm_compute; reflexivity|]. split; [vm_compute; reflexivity|].
  split; [vm_compute; reflexivity|].
  apply (Hpairs 0%nat 1%nat); [lia| vm_compute; reflexivity..].
Defined.

Lemma execute_applies_requested_state_witness :
  let data := execute_body [no_on_param ["jenkins_job"]; turn true ["lamp"]] in
  let served := smarthome (initial_state None) data (obs_const t_0 (Responded 500)) in
  device_states served.2 !! "jenkins_job" = Some false /\
  device_states served.2 !! "lamp" = Some true /\
  exists results,
    served.1 = JsonExecute "req-2" results /\
    map (fun r => (ids r, states_on r, states_online r)) results
      = [(["jenkins_job"], false, true); (["lamp"], true, true)].
Proof.
  intros data served.
  destruct (execute_applies_requested_state (initial_state None) data
              (obs_const t_0 (Responded 500)) "lamp" true t_0 (Responded 500))
    as (_ & (results & Hresp & Hfields & _) & Hdev & _).
  - reflexivity.
  - fold served in Hdev, Hresp. rewrite Hdev.
    split; [vm_compute; reflexivity|]. split; [vm_compute; reflexivity|].
    exists results. split; [exact Hresp|]. exact Hfields.
Defined.

Lemma query_reports_device_states_witness :
  let st := run example_clients (initial_state None)
              [Smarthome (execute_body [turn true ["jenkins_job"]])
                         (obs_const t_0 (Responded 200))] in
  let served := smarthome st (query_body ["jenkins_job"; "lamp"]) (obs_const 0 RequestException) in
  served.2 = st /\
  exists resp,
    served.1 = JsonQuery "req-1" resp /\
    resp !! "jenkins_job" = Some (QueryResult true true) /\
    resp !! "lamp" = Some (QueryResult true false) /\
    resp !! "fan" = None.
Proof.
  intros st served.
  destruct (query_reports_device_states st (query_body ["jenkins_job"; "lamp"])
              (obs_const 0 RequestException))
    as (Hsame & resp & Hresp & Hin & Hout & _ & Hnever).
  - reflexivity.
  - split; [exact Hsame|]. exists resp. split; [exact Hresp|].
    split; [|split].
    + rewrite Hin by (simpl; auto). vm_compute. reflexivity.
    + apply (Hnever example_clients None
               [Smarthome (execute_body [turn true ["jenkins_job"]])
                          (obs_const t_0 (Responded 200))]).
      * reflexivity.
      * apply Forall_cons_2; [|apply Forall_nil_2].
        simpl. intros [_ [H|[]]]. discriminate H.
      * simpl. auto.
    + apply Hout. simpl. intros [H|[H|[]]]; discriminate H.
Defined.

(** * Further properties of the endpoints *)

(** ** /authorize and /token *)

Section GrantEndpoints.

Context (VALID_CLIENTS : gmap string string).

Lemma with_auth_codes_same st : with_auth_codes st (auth_codes st) = st.
Proof. by destruct st. Qed.

(** The six ways through [token]. *)
Lemma token_cases st f t16 t24 :
  token VALID_CLIENTS st f t16 t24 = (JsonError "invalid_client" 401, st) \/
  token VALID_CLIENTS st f t16 t24 = (JsonError "unsupported_grant_type" 400, st) \/
  (tf_grant_type f = Some "authorization_code" /\
   token VALID_CLIENTS st f t16 t24 =
     (JsonError "invalid_grant" 400,
      with_auth_codes st (py_pop (auth_codes st) (tf_code f)).2)) \/
  (tf_grant_type f = Some "refresh_token" /\
   token VALID_CLIENTS st f t16 t24 = (JsonError "invalid_grant" 400, st)) \/
  (exists c,
     tf_grant_type f = Some "authorization_code" /\
     tf_code f = Some c /\
     auth_codes st !! c = Some (tf_client_id f, tf_redirect_uri f) /\
     token VALID_CLIENTS st f t16 t24 =
       (JsonToken t16 "Bearer" 3600 (Some t24),
        save_tokens_to_file
          (with_tokens (with_auth_codes st (delete c (auth_codes st)))
             (<[t16 := tf_client_id f]> (access_tokens st))
             (<[t24 := tf_client_id f]> (refresh_tokens st))))) \/
  (tf_grant_type f = Some "refresh_token" /\
   token VALID_CLIENTS st f t16 t24 =
     (JsonToken t16 "Bearer" 3600 None,
      save_tokens_to_file
        (with_tokens st (<[t16 := tf_client_id f]> (access_tokens st))
           (refresh_tokens st)))).
Proof.
  unfold token.
  destruct (decide (tf_grant_type f = Some "authorization_code")) as [Hac|Hac].
  - case_decide; [by left|].
    destruct (tf_code f) as [c|]; simpl.
    + destruct (auth_codes st !! c) as [[sc su]|] eqn:Hs.
      * repeat case_decide; try (right; right; left; by split).
        right; right; right; right; left. exists c.
        assert (sc = tf_client_id f) as -> by (by destruct (decide (sc = tf_client_id f))).
        assert (su = tf_redirect_uri f) as -> by (by destruct (decide (su = tf_redirect_uri f))).
        done.
      * right; right; left. by split.
    + right; right; left. by split.
  - destruct (decide (tf_grant_type f = Some "refresh_token")) as [Hrt|Hrt].
    + repeat case_decide; [by left|right; right; right; left; by split|].
      right; right; right; right; right. by split.
    + right; by left.
Qed.

(** X1. A GET on /authorize never changes the state, so it issues no code;
    it answers 400 "Unknown client_id" when the client id is absent or not
    in the Registry, and otherwise the login page with the client id, the
    redirect target and the state (empty when absent) passed through. *)
Theorem authorize_get_checks_client
    (st : state) (f : authorize_fields) (code : string) :
  let served := authorize VALID_CLIENTS st GET f code in
  served.2 = st /\
  (py_get VALID_CLIENTS (af_client_id f) = None ->
     served.1 = Plain "Unknown client_id" 400) /\
  (forall cid secret,
     af_client_id f = Some cid -> VALID_CLIENTS !! cid = Some secret ->
     served.1 = LoginPage (Some cid) (af_redirect_uri f) (default "" (af_state f))).
Proof.
  intros served. subst served. split; [apply authorize_get|]. split.
  - intros Hnone. simpl. by rewrite Hnone.
  - intros cid secret Hcid Hreg. simpl. rewrite Hcid. simpl. by rewrite Hreg.
Qed.

(** X2. A login submission without [redirect_uri] raises when it looks for
    [?] in the missing value, after the code has been stored; the code is
    bound to the client and to no redirect target, and an exchange that
    passes the client check and sends no [redirect_uri] either redeems
    it. *)
Theorem login_without_redirect_uri_leaves_code
    (st : state) (f : authorize_fields) (code : string)
    (ex : token_fields) (t16 t24 : string) :
  af_redirect_uri f = None ->
  tf_grant_type ex = Some "authorization_code" ->
  tf_code ex = Some code ->
  tf_client_id ex = af_client_id f ->
  tf_redirect_uri ex = None ->
  authenticated VALID_CLIENTS ex ->
  let submitted := authorize VALID_CLIENTS st POST f code in
  submitted.1 = Raised "TypeError" /\
  auth_codes submitted.2 !! code = Some (af_client_id f, None) /\
  (token VALID_CLIENTS submitted.2 ex t16 t24).1 =
    JsonToken t16 "Bearer" 3600 (Some t24).
Proof.
  intros Hnone Hg Hc Hid Huri Ha submitted.
  assert (Hstored : auth_codes submitted.2 !! code = Some (af_client_id f, None)).
  { subst submitted. rewrite authorize_post. simpl.
    rewrite lookup_insert_eq. by rewrite Hnone. }
  split; [|split; [exact Hstored|]].
  - subst submitted. simpl. by rewrite Hnone.
  - rewrite (token_code_ok _ _ _ _ _ code); [done..|].
    by rewrite Hid, Huri.
Qed.

(** X3. A token request answers with one of three errors or with a token
    response whose access token is the 16-byte draw, of type Bearer and
    3600 seconds.  An error response leaves both token maps, the token file
    and the bridge untouched, and leaves the whole state untouched unless it
    is [invalid_grant]; a token response stores the access token against the
    presented client and writes both maps to the file. *)
Theorem token_response_shapes
    (st : state) (f : token_fields) (t16 t24 : string) :
  let served := token VALID_CLIENTS st f t16 t24 in
  match served.1 with
  | JsonError e code =>
      ((e = "invalid_client" /\ code = 401%Z) \/
       (e = "invalid_grant" /\ code = 400%Z) \/
       (e = "unsupported_grant_type" /\ code = 400%Z)) /\
      access_tokens served.2 = access_tokens st /\
      refresh_tokens served.2 = refresh_tokens st /\
      tokens_file served.2 = tokens_file st /\
      (e <> "invalid_grant" -> served.2 = st)
  | JsonToken a ty expires r =>
      a = t16 /\ ty = "Bearer" /\ expires = 3600%Z /\
      (r = None \/ r = Some t24) /\
      access_tokens served.2 !! a = Some (tf_client_id f) /\
      tokens_file served.2 = Some (access_tokens served.2, refresh_tokens served.2)
  | _ => False
  end.
Proof.
  intros served. subst served.
  destruct (token_cases st f t16 t24)
    as [->|[->|[[_ ->]|[[_ ->]|[(c & _ & _ & _ & ->)|[_ ->]]]]]]; simpl.
  - repeat split; auto.
  - repeat split; auto.
  - repeat split; auto. intros Hne. by destruct Hne.
  - repeat split; auto.
  - repeat split; auto. apply lookup_insert_eq.
  - repeat split; auto. apply lookup_insert_eq.
Qed.

(** X4. A token request of either grant is refused with [invalid_client]
    (401), the state untouched, when it names a registered client and
    sends another secret or none, and when it sends a secret for a client
    that is not registered. *)
Theorem token_rejects_wrong_secret
    (st : state) (f : token_fields) (t16 t24 : string) :
  tf_grant_type f = Some "authorization_code" \/ tf_grant_type f = Some "refresh_token" ->
  (exists cid secret,
     tf_client_id f = Some cid /\ VALID_CLIENTS !! cid = Some secret /\
     tf_client_secret f <> Some secret) \/
  (exists sent,
     tf_client_secret f = Some sent /\ py_get VALID_CLIENTS (tf_client_id f) = None) ->
  token VALID_CLIENTS st f t16 t24 = (JsonError "invalid_client" 401, st).
Proof.
  intros Hg Hbad. apply token_invalid_client; [exact Hg|].
  unfold authenticated.
  destruct Hbad as [(cid & secret & Hcid & Hreg & Hne)|(sent & Hsent & Hnone)].
  - rewrite Hcid. simpl. rewrite Hreg. congruence.
  - rewrite Hnone, Hsent. discriminate.
Qed.

(** X5. A refresh token is bound to its client: a refresh request that
    presents a stored refresh token under another client id, or a refresh
    token that is not stored under any client id, mints nothing and leaves
    the state untouched; it is refused with [invalid_grant] (400) when the
    client check passes and with [invalid_client] (401) when it does
    not. *)
Theorem refresh_token_is_bound_to_client
    (st : state) (f : token_fields) (t16 t24 rt : string) :
  tf_grant_type f = Some "refresh_token" ->
  tf_refresh_token f = Some rt ->
  (exists owner, refresh_tokens st !! rt = Some owner /\ owner <> tf_client_id f) \/
  (refresh_tokens st !! rt = None /\ tf_client_id f <> None) ->
  let served := token VALID_CLIENTS st f t16 t24 in
  served.2 = st /\
  (authenticated VALID_CLIENTS f -> served.1 = JsonError "invalid_grant" 400) /\
  (~ authenticated VALID_CLIENTS f -> served.1 = JsonError "invalid_client" 401).
Proof.
  intros Hg Hrt Hbound served. subst served.
  assert (Hflat : py_get_flat (refresh_tokens st) (tf_refresh_token f) <> tf_client_id f).
  { unfold py_get_flat. rewrite Hrt. simpl.
    destruct Hbound as [(owner & -> & Hne)|[-> Hne]]; [done|congruence]. }
  unfold token, authenticated.
  rewrite decide_False by (rewrite Hg; discriminate).
  rewrite decide_True by done.
  case_decide as Hauth.
  - split; [done|]. split; [intros Ha; by destruct Hauth|done].
  - rewrite decide_True by done. split; [done|]. split; [done|].
    intros Hna. destruct Hna. by destruct (decide
      (py_get VALID_CLIENTS (tf_client_id f) = tf_client_secret f)).
Qed.

(** X6. The tokens of a successful code exchange are usable at once: the
    access token and the refresh token are stored against the presented
    client, and a refresh by the same client with the same secret that
    presents the new refresh token answers with an access token. *)
Theorem exchanged_refresh_token_refreshes
    (st : state) (ex rf : token_fields) (c t16 t24 u16 u24 : string) :
  tf_grant_type ex = Some "authorization_code" ->
  authenticated VALID_CLIENTS ex ->
  tf_code ex = Some c ->
  auth_codes st !! c = Some (tf_client_id ex, tf_redirect_uri ex) ->
  tf_grant_type rf = Some "refresh_token" ->
  tf_refresh_token rf = Some t24 ->
  tf_client_id rf = tf_client_id ex ->
  tf_client_secret rf = tf_client_secret ex ->
  let exchanged := token VALID_CLIENTS st ex t16 t24 in
  exchanged.1 = JsonToken t16 "Bearer" 3600 (Some t24) /\
  access_tokens exchanged.2 !! t16 = Some (tf_client_id ex) /\
  refresh_tokens exchanged.2 !! t24 = Some (tf_client_id ex) /\
  (token VALID_CLIENTS exchanged.2 rf u16 u24).1 = JsonToken u16 "Bearer" 3600 None.
Proof.
  intros Hg Ha Hc Hs Hg' Hrt Hid Hsec exchanged. subst exchanged.
  rewrite (token_code_ok _ _ _ _ _ c) by done. simpl.
  split; [done|]. split; [apply lookup_insert_eq|]. split; [apply lookup_insert_eq|].
  rewrite token_refresh_ok; [done|done|..].
  - unfold authenticated in *. by rewrite Hid, Hsec.
  - unfold py_get_flat. rewrite Hrt. simpl. rewrite lookup_insert_eq. by rewrite Hid.
Qed.


(** ** The grant stores over a run *)

Lemma run_cons st req reqs :
  run VALID_CLIENTS st (req :: reqs) =
    run VALID_CLIENTS (handle VALID_CLIENTS st req).2 reqs.
Proof. reflexivity. Qed.

Lemma initial_state_file_in_sync file : file_in_sync (initial_state file).
Proof.
  unfold file_in_sync, initial_state.
  destruct (load_tokens_from_file file) as [a r] eqn:Hload. exact Hload.
Qed.

Lemma handle_file_in_sync st req :
  file_in_sync st -> file_in_sync (handle VALID_CLIENTS st req).2.
Proof.
  unfold file_in_sync. intros Hsync.
  destruct req as [[|] af code|f t16 t24|data obs]; cbv beta iota delta [handle].
  - by rewrite authorize_get.
  - by rewrite authorize_post.
  - destruct (token_cases st f t16 t24)
      as [->|[->|[[_ ->]|[[_ ->]|[(c & _ & _ & _ & ->)|[_ ->]]]]]]; done.
  - pose proof (smarthome_grant_stores st data obs) as [= -> -> _ ->]. done.
Qed.

Lemma handle_tokens_kept st req tok :
  (is_Some (access_tokens st !! tok) ->
   is_Some (access_tokens (handle VALID_CLIENTS st req).2 !! tok)) /\
  (is_Some (refresh_tokens st !! tok) ->
   is_Some (refresh_tokens (handle VALID_CLIENTS st req).2 !! tok)).
Proof.
  destruct req as [[|] af code|f t16 t24|data obs]; cbv beta iota delta [handle].
  - by rewrite authorize_get.
  - by rewrite authorize_post.
  - destruct (token_stores VALID_CLIENTS st f t16 t24) as (_ & Hr & Ha).
    split; intros Hsome.
    + destruct Ha as [-> | ->]; [done|]. rewrite lookup_insert_is_Some.
      destruct (decide (t16 = tok)); auto.
    + destruct Hr as [-> | ->]; [done|]. rewrite lookup_insert_is_Some.
      destruct (decide (t24 = tok)); auto.
  - pose proof (smarthome_grant_stores st data obs) as [= -> -> _ _]. done.
Qed.

Lemma handle_code_origin st req c :
  is_Some (auth_codes (handle VALID_CLIENTS st req).2 !! c) ->
  is_Some (auth_codes st !! c) \/ issues c req.
Proof.
  destruct req as [[|] af code|f t16 t24|data obs]; cbv beta iota delta [handle].
  - rewrite authorize_get. auto.
  - rewrite authorize_post. simpl. rewrite lookup_insert_is_Some.
    intros [->|[_ Hsome]]; auto.
  - destruct (token_stores VALID_CLIENTS st f t16 t24) as ([->|(c' & _ & ->)] & _);
      [auto|].
    intros [v Hv]. apply lookup_delete_Some in Hv as [_ Hv]. left. by exists v.
  - pose proof (smarthome_grant_stores st data obs) as [= _ _ -> _]. auto.
Qed.

Lemma run_code_origin reqs st c :
  is_Some (auth_codes (run VALID_CLIENTS st reqs) !! c) ->
  is_Some (auth_codes st !! c) \/ Exists (issues c) reqs.
Proof.
  revert st. induction reqs as [|req rest IH]; intros st Hsome; [by left|].
  rewrite run_cons in Hsome.
  destruct (IH _ Hsome) as [Hhere|Hrest].
  - destruct (handle_code_origin st req c Hhere) as [Hst|Hreq]; [by left|].
    right. by apply Exists_cons_hd.
  - right. by apply Exists_cons_tl.
Qed.

(** X7. After any sequence of requests served from startup, [tokens.json]
    holds exactly the two token maps of the process: a process started from
    that file has the same access and refresh tokens, while it starts with
    an empty code ledger, the initial device table and a zero
    [last_trigger_time]. *)
Theorem tokens_survive_restart
    (file : option (gmap string (option string) * gmap string (option string)))
    (reqs : list request) :
  let st := run VALID_CLIENTS (initial_state file) reqs in
  let restarted := initial_state (tokens_file st) in
  load_tokens_from_file (tokens_file st) = (access_tokens st, refresh_tokens st) /\
  access_tokens restarted = access_tokens st /\
  refresh_tokens restarted = refresh_tokens st /\
  auth_codes restarted = ∅ /\
  device_states restarted = {["jenkins_job" := false]} /\
  last_trigger_time restarted = 0%Q.
Proof.
  intros st restarted.
  assert (Hsync : file_in_sync st).
  { subst st. generalize (initial_state file) (initial_state_file_in_sync file).
    induction reqs as [|req rest IH]; intros s Hs; [done|].
    rewrite run_cons. apply IH. by apply handle_file_in_sync. }
  unfold file_in_sync in Hsync. subst restarted. unfold initial_state.
  rewrite Hsync. done.
Qed.

(** X8. No request removes a token: an access token or a refresh token that
    is in its map stays in it through any sequence of requests. *)
Theorem tokens_are_never_removed
    (st : state) (reqs : list request) (tok : string) :
  (is_Some (access_tokens st !! tok) ->
   is_Some (access_tokens (run VALID_CLIENTS st reqs) !! tok)) /\
  (is_Some (refresh_tokens st !! tok) ->
   is_Some (refresh_tokens (run VALID_CLIENTS st reqs) !! tok)).
Proof.
  revert st. induction reqs as [|req rest IH]; intros st; [done|].
  rewrite run_cons.
  destruct (handle_tokens_kept st req tok) as [Ha Hr].
  destruct (IH (handle VALID_CLIENTS st req).2) as [Ha' Hr']. auto.
Qed.

(** X9. Tokens are given for issued codes only: when, after any sequence of
    requests served from startup, a token request is answered with an
    access token and a refresh token, its [code] field is the code drawn by
    a login submission of that sequence. *)
Theorem tokens_only_for_issued_codes
    (file : option (gmap string (option string) * gmap string (option string)))
    (reqs : list request) (f : token_fields) (t16 t24 : string)
    (a ty : string) (e : Z) (rt : string) :
  (token VALID_CLIENTS (run VALID_CLIENTS (initial_state file) reqs) f t16 t24).1
    = JsonToken a ty e (Some rt) ->
  exists c, tf_code f = Some c /\ Exists (issues c) reqs.
Proof.
  intros Hresp.
  destruct (token_cases (run VALID_CLIENTS (initial_state file) reqs) f t16 t24)
    as [H|[H|[[_ H]|[[_ H]|[(c & _ & Hc & Hs & _)|[_ H]]]]]];
    try (rewrite H in Hresp; discriminate Hresp).
  exists c. split; [exact Hc|].
  destruct (run_code_origin reqs (initial_state file) c) as [Hinit|Hissued];
    [by rewrite Hs| |exact Hissued].
  unfold initial_state in Hinit. destruct (load_tokens_from_file file).
  simpl in Hinit. rewrite lookup_empty in Hinit. by destruct Hinit.
Qed.

End GrantEndpoints.

(** ** /smarthome and the debouncer *)

Section BridgeEndpoints.

Local Open Scope Q_scope.

Lemma execute_device_suppressed st did onoff t o :
  t - last_trigger_time st < MIN_INTERVAL ->
  execute_device st did onoff t o =
    (ExecuteResult [did] "ERROR" onoff true,
     emit LockRelease
       (emit (Stdout DuplicateIgnored)
          (emit LockAcquire
             (emit (DeviceWrite did onoff)
                (with_device_states st (<[did := onoff]> (device_states st))))))).
Proof.
  intros Hlt. rewrite execute_device_unfold. simpl.
  by rewrite trigger_jenkins_suppressed.
Qed.

Lemma execute_device_forwarded_log st did onoff t o :
  MIN_INTERVAL <= t - last_trigger_time st ->
  post_times (effects (execute_device st did onoff t o).2) = t :: post_times (effects st) /\
  last_trigger_time (execute_device st did onoff t o).2 = t /\
  In (HttpPost t (if onoff then "apply" else "destroy")%string)
     (effects (execute_device st did onoff t o).2).
Proof.
  intros Hge. rewrite execute_device_unfold. simpl.
  destruct (trigger_jenkins_forwarded_log
              (emit (DeviceWrite did onoff)
                 (with_device_states st (<[did := onoff]> (device_states st))))
              (if onoff then "apply" else "destroy")%string t o Hge) as [-> ->].
  split; [done|]. split; [done|].
  rewrite trigger_jenkins_forwarded by exact Hge. destruct o; simpl; auto.
Qed.

Lemma smarthome_not_execute st data obs :
  intent data <> "action.devices.EXECUTE"%string -> (smarthome st data obs).2 = st.
Proof. intros Hne. unfold smarthome. by repeat case_decide. Qed.

Lemma smarthome_execute st data obs :
  intent data = "action.devices.EXECUTE"%string ->
  smarthome st data obs =
    (JsonExecute (requestId data)
       (execute_targets (targets (p_commands (input_payload data))) obs ([], st)).1,
     (execute_targets (targets (p_commands (input_payload data))) obs ([], st)).2).
Proof.
  intros Hi. unfold smarthome. rewrite Hi.
  rewrite !decide_False by discriminate. rewrite decide_True by done.
  rewrite execute_commands_targets. by destruct (execute_targets _ _ _).
Qed.

(** A property of the state that every device execution keeps is kept by
    every request. *)
Lemma handle_state_ind (P : state -> Prop) VALID_CLIENTS st req :
  (forall s s', bridge_fields s' = bridge_fields s -> P s -> P s') ->
  (forall s did onoff t o, P s -> P (execute_device s did onoff t o).2) ->
  P st -> P (handle VALID_CLIENTS st req).2.
Proof.
  intros Hframe Hstep Hst.
  destruct req as [method f code|f t16 t24|data obs]; cbv beta iota delta [handle].
  - eapply Hframe; [apply authorize_bridge_fields|done].
  - eapply Hframe; [apply token_bridge_fields|done].
  - destruct (decide (intent data = "action.devices.EXECUTE"%string)) as [Hi|Hi].
    + rewrite smarthome_execute by done. simpl.
      by apply (execute_targets_state_ind P _ obs ([], st)).
    + by rewrite smarthome_not_execute.
Qed.

Lemma run_state_ind (P : state -> Prop) VALID_CLIENTS reqs st :
  (forall s s', bridge_fields s' = bridge_fields s -> P s -> P s') ->
  (forall s did onoff t o, P s -> P (execute_device s did onoff t o).2) ->
  P st -> P (run VALID_CLIENTS st reqs).
Proof.
  intros Hframe Hstep. revert st.
  induction reqs as [|req rest IH]; intros st Hst; [done|].
  apply IH. by apply handle_state_ind.
Qed.

(** X10. Only EXECUTE reaches the bridge: a request that is not an EXECUTE
    leaves the device table, [last_trigger_time] and the log of locks and
    POSTs as they are; a smart-home request leaves the token maps, the code
    ledger and the token file as they are; a smart-home request that is not
    an EXECUTE changes nothing at all. *)
Theorem only_execute_reaches_jenkins
    (VALID_CLIENTS : gmap string string) (st : state) (req : request) :
  (~ is_execute req ->
     bridge_fields (handle VALID_CLIENTS st req).2 = bridge_fields st) /\
  (forall data obs, req = Smarthome data obs ->
     grant_stores (handle VALID_CLIENTS st req).2 = grant_stores st) /\
  (forall data obs, req = Smarthome data obs -> ~ is_execute req ->
     (handle VALID_CLIENTS st req).2 = st).
Proof.
  split; [|split].
  - intros Hne. destruct req as [method f code|f t16 t24|data obs];
      cbv beta iota delta [handle].
    + apply authorize_bridge_fields.
    + apply token_bridge_fields.
    + by rewrite smarthome_not_execute.
  - intros data obs ->. apply smarthome_grant_stores.
  - intros data obs -> Hne. by apply smarthome_not_execute.
Qed.

(** X11. A POST that fails still starts the cooldown: when a call passes
    the cooldown test and the POST raises or answers anything but 200, the
    call returns false with [last_trigger_time] set to its clock reading,
    and a second call less than 10 seconds later is suppressed without a
    POST. *)
Theorem failed_post_starts_cooldown
    (st : state) (action1 action2 : string) (t1 t2 : Q) (o1 o2 : post_outcome) :
  MIN_INTERVAL <= t1 - last_trigger_time st ->
  o1 <> Responded 200 ->
  t2 - t1 < MIN_INTERVAL ->
  let call1 := trigger_jenkins st action1 t1 o1 in
  let call2 := trigger_jenkins call1.2 action2 t2 o2 in
  call1.1 = false /\
  last_trigger_time call1.2 = t1 /\
  call2.1 = false /\
  post_times (effects call2.2) = t1 :: post_times (effects st) /\
  last_trigger_time call2.2 = t1.
Proof.
  intros Hge Hfail Hlt call1 call2.
  destruct (trigger_jenkins_forwarded_log st action1 t1 o1 Hge) as [Hp1 Hl1].
  fold call1 in Hp1, Hl1.
  assert (Hlt' : t2 - last_trigger_time call1.2 < MIN_INTERVAL) by (by rewrite Hl1).
  destruct (trigger_jenkins_suppressed_log call1.2 action2 t2 o2 Hlt') as [Hp2 Hl2].
  fold call2 in Hp2, Hl2.
  split; [|split; [exact Hl1|split; [|split]]].
  - subst call1. rewrite trigger_jenkins_forwarded by exact Hge.
    destruct o1 as [code|]; simpl; [|done].
    apply bool_decide_eq_false. congruence.
  - subst call2. by rewrite trigger_jenkins_suppressed.
  - by rewrite Hp2, Hp1.
  - by rewrite Hl2, Hl1.
Qed.

(** X12. [last_trigger_time] never goes back: after any sequence of
    requests it is at least what it was. *)
Theorem last_trigger_time_never_decreases
    (VALID_CLIENTS : gmap string string) (st : state) (reqs : list request) :
  last_trigger_time st <= last_trigger_time (run VALID_CLIENTS st reqs).
Proof.
  apply (run_state_ind (fun s => last_trigger_time st <= last_trigger_time s)).
  - intros s s' [= _ -> _]. done.
  - intros s did onoff t o Hs.
    destruct (cooldown_cases s t) as [Hlt|Hge].
    + by rewrite execute_device_suppressed.
    + destruct (execute_device_forwarded_log s did onoff t o Hge) as (_ & -> & _).
      unfold MIN_INTERVAL in Hge. lra.
  - apply Qle_refl.
Qed.

(** X13. The lock is released on every way out of [trigger_jenkins], also
    when the POST raises; so after any sequence of requests that starts
    with the lock free, the lock is free. *)
Theorem lock_is_always_released
    (VALID_CLIENTS : gmap string string) (st : state) (reqs : list request)
    (action : string) (t : Q) (o : post_outcome) :
  lock_held (effects (trigger_jenkins st action t o).2) = false /\
  (lock_held (effects st) = false ->
   lock_held (effects (run VALID_CLIENTS st reqs)) = false).
Proof.
  assert (Hcall : forall s a t' o',
            lock_held (effects (trigger_jenkins s a t' o').2) = false).
  { intros s a t' o'. destruct (cooldown_cases s t') as [Hlt|Hge].
    - by rewrite trigger_jenkins_suppressed.
    - rewrite trigger_jenkins_forwarded by done. by destruct o'. }
  split; [apply Hcall|].
  apply (run_state_ind (fun s => lock_held (effects s) = false)).
  - intros s s' [= _ _ ->]. done.
  - intros s did onoff t' o' _. rewrite execute_device_unfold. apply Hcall.
Qed.


(** ** Batches *)

Lemma successes_snoc results r :
  successes (results ++ [r])%list =
    (successes results + if decide (status r = "SUCCESS"%string) then 1 else 0)%nat.
Proof.
  unfold successes. rewrite filter_app, length_app. f_equal.
  rewrite filter_cons, filter_nil. by case_decide.
Qed.

(** Once [last_trigger_time] is a clock reading of the request and all its
    readings are within the interval, every further call is suppressed. *)
Lemma execute_targets_quiet ts obs acc :
  (forall i j, (obs j).1 - (obs i).1 < MIN_INTERVAL) ->
  (exists k, last_trigger_time acc.2 = (obs k).1) ->
  post_times (effects (execute_targets ts obs acc).2) = post_times (effects acc.2) /\
  successes (execute_targets ts obs acc).1 = successes acc.1.
Proof.
  intros Hwin. revert acc.
  induction ts as [|[did onoff] rest IH]; intros acc [k Hk]; simpl; [done|].
  destruct (obs (length acc.1)) as [t o] eqn:Hobs.
  assert (Hlt : t - last_trigger_time acc.2 < MIN_INTERVAL).
  { rewrite Hk. replace t with (obs (length acc.1)).1 by (by rewrite Hobs). apply Hwin. }
  rewrite execute_device_suppressed by exact Hlt.
  destruct (IH ((acc.1 ++ [ExecuteResult [did] "ERROR" onoff true])%list,
                emit LockRelease
                  (emit (Stdout DuplicateIgnored)
                     (emit LockAcquire
                        (emit (DeviceWrite did onoff)
                           (with_device_states acc.2
                              (<[did := onoff]> (device_states acc.2)))))))
              ltac:(by exists k)) as [-> ->].
  simpl. split; [done|]. rewrite successes_snoc. simpl. lia.
Qed.

Lemma execute_targets_window ts obs acc :
  (forall i j, (obs j).1 - (obs i).1 < MIN_INTERVAL) ->
  (length (post_times (effects (execute_targets ts obs acc).2))
     <= S (length (post_times (effects acc.2))))%nat /\
  (successes (execute_targets ts obs acc).1 <= S (successes acc.1))%nat.
Proof.
  intros Hwin. revert acc.
  induction ts as [|[did onoff] rest IH]; intros acc; simpl; [lia|].
  destruct (obs (length acc.1)) as [t o] eqn:Hobs.
  destruct (cooldown_cases acc.2 t) as [Hlt|Hge].
  - rewrite execute_device_suppressed by exact Hlt.
    destruct (IH ((acc.1 ++ [ExecuteResult [did] "ERROR" onoff true])%list,
                  emit LockRelease
                    (emit (Stdout DuplicateIgnored)
                       (emit LockAcquire
                          (emit (DeviceWrite did onoff)
                             (with_device_states acc.2
                                (<[did := onoff]> (device_states acc.2)))))))) as [Hp Hs].
    simpl in Hp, Hs. rewrite successes_snoc in Hs. simpl in Hs. split; lia.
  - destruct (execute_device_forwarded_log acc.2 did onoff t o Hge) as (Hp & Hl & _).
    pose proof (execute_device_result acc.2 did onoff t o) as _.
    destruct (execute_device acc.2 did onoff t o) as [r st'] eqn:Hdev.
    simpl in Hp, Hl.
    destruct (execute_targets_quiet rest obs ((acc.1 ++ [r])%list, st') Hwin) as [-> ->].
    { exists (length acc.1). simpl. by rewrite Hl, Hobs. }
    simpl. rewrite Hp, successes_snoc. simpl. split; [lia|]. case_decide; lia.
Qed.

(** X14. One EXECUTE request whose clock readings all lie within the
    interval of one another reaches Jenkins at most once, however many
    commands and devices it names, and at most one of its results has
    status SUCCESS. *)
Theorem batch_posts_at_most_once
    (st : state) (data : smarthome_body) (obs : nat -> Q * post_outcome) :
  (forall i j, (obs j).1 - (obs i).1 < MIN_INTERVAL) ->
  let served := smarthome st data obs in
  (length (post_times (effects served.2)) <= S (length (post_times (effects st))))%nat /\
  (forall requestId results,
     served.1 = JsonExecute requestId results -> (successes results <= 1)%nat).
Proof.
  intros Hwin served. subst served.
  destruct (decide (intent data = "action.devices.EXECUTE"%string)) as [Hi|Hi].
  - rewrite smarthome_execute by done. simpl.
    destruct (execute_targets_window
                (targets (p_commands (input_payload data))) obs ([], st) Hwin)
      as [Hp Hs].
    split; [exact Hp|]. intros rid results [= _ <-]. exact Hs.
  - rewrite smarthome_not_execute by done. split; [lia|].
    intros rid results. unfold smarthome.
    repeat case_decide; try done; intros Hresp; discriminate Hresp.
Qed.

Lemma assign_all_last before after did v (d : gmap string bool) :
  ~ In did (map fst after) ->
  assign_all (before ++ (did, v) :: after) d !! did = Some v.
Proof.
  intros Hnot. unfold assign_all. rewrite foldl_app. simpl.
  fold (assign_all after (<[did := v]> (foldl (fun m t => <[t.1 := t.2]> m) d before))).
  rewrite assign_all_other by done. apply lookup_insert_eq.
Qed.

(** X15. What EXECUTE writes, QUERY reads: after an EXECUTE request, a
    QUERY for a device that the request named reports the value of the
    last command that named it, whether or not any of the calls to Jenkins
    was made or succeeded, and whether or not the device is the one that
    SYNC announces. *)
Theorem query_after_execute
    (st : state) (xdata qdata : smarthome_body)
    (xobs qobs : nat -> Q * post_outcome)
    (before after : list (string * bool)) (did : string) (v : bool) :
  intent xdata = "action.devices.EXECUTE"%string ->
  targets (p_commands (input_payload xdata)) = (before ++ (did, v) :: after)%list ->
  ~ In did (map fst after) ->
  intent qdata = "action.devices.QUERY"%string ->
  In did (map d_id (p_devices (input_payload qdata))) ->
  let executed := smarthome st xdata xobs in
  device_states executed.2 !! did = Some v /\
  exists resp,
    (smarthome executed.2 qdata qobs).1 = JsonQuery (requestId qdata) resp /\
    resp !! did = Some (QueryResult true v).
Proof.
  intros Hx Hts Hlast Hq Hin executed.
  assert (Hdev : device_states executed.2 !! did = Some v).
  { subst executed. rewrite smarthome_execute by done. simpl.
    rewrite execute_targets_device_states, Hts. simpl. by apply assign_all_last. }
  split; [exact Hdev|].
  unfold smarthome at 1. rewrite Hq.
  rewrite decide_False by discriminate. rewrite decide_True by done. simpl.
  eexists. split; [reflexivity|].
  rewrite query_fold_in by done. by rewrite Hdev.
Qed.

(** X16. An EXECUTE request that names no device, because it has no
    command or only commands without devices, answers with an empty list
    of results and changes nothing; a QUERY request for no device answers
    with an empty object. *)
Theorem empty_requests
    (st : state) (data : smarthome_body) (obs : nat -> Q * post_outcome) :
  (intent data = "action.devices.EXECUTE"%string ->
   Forall (fun cmd => cmd_devices cmd = []) (p_commands (input_payload data)) ->
   smarthome st data obs = (JsonExecute (requestId data) [], st)) /\
  (intent data = "action.devices.QUERY"%string ->
   p_devices (input_payload data) = [] ->
   smarthome st data obs = (JsonQuery (requestId data) ∅, st)).
Proof.
  split.
  - intros Hi Hempty. rewrite smarthome_execute by done.
    assert (targets (p_commands (input_payload data)) = []) as ->; [|done].
    induction Hempty as [|cmd rest Hcmd _ IH]; [done|].
    unfold targets in *. simpl. by rewrite Hcmd, IH.
  - intros Hi Hempty. unfold smarthome. rewrite Hi.
    rewrite decide_False by discriminate. rewrite decide_True by done.
    by rewrite Hempty.
Qed.

Lemma trigger_jenkins_same_bridge s1 s2 action t o :
  bridge_fields s1 = bridge_fields s2 ->
  (trigger_jenkins s1 action t o).1 = (trigger_jenkins s2 action t o).1 /\
  bridge_fields (trigger_jenkins s1 action t o).2 =
    bridge_fields (trigger_jenkins s2 action t o).2.
Proof.
  destruct s1, s2. intros [= -> -> ->]. unfold trigger_jenkins. simpl.
  destruct (Qlt_le_dec _ _); [done|]. by destruct o.
Qed.

Lemma execute_device_same_bridge s1 s2 did onoff t o :
  bridge_fields s1 = bridge_fields s2 ->
  (execute_device s1 did onoff t o).1 = (execute_device s2 did onoff t o).1 /\
  bridge_fields (execute_device s1 did onoff t o).2 =
    bridge_fields (execute_device s2 did onoff t o).2.
Proof.
  intros Hsame. rewrite !execute_device_unfold. simpl.
  destruct (trigger_jenkins_same_bridge
              (emit (DeviceWrite did onoff)
                 (with_device_states s1 (<[did := onoff]> (device_states s1))))
              (emit (DeviceWrite did onoff)
                 (with_device_states s2 (<[did := onoff]> (device_states s2))))
              (if onoff then "apply" else "destroy")%string t o) as [-> ->]; [|done].
  destruct s1, s2. by injection Hsame as -> -> ->.
Qed.

Lemma execute_targets_same_bridge ts obs acc1 acc2 :
  acc1.1 = acc2.1 ->
  bridge_fields acc1.2 = bridge_fields acc2.2 ->
  (execute_targets ts obs acc1).1 = (execute_targets ts obs acc2).1 /\
  bridge_fields (execute_targets ts obs acc1).2 =
    bridge_fields (execute_targets ts obs acc2).2.
Proof.
  revert acc1 acc2.
  induction ts as [|[did onoff] rest IH]; intros acc1 acc2 Hres Hsame; simpl; [done|].
  rewrite Hres. destruct (obs _) as [t o].
  destruct (execute_device_same_bridge acc1.2 acc2.2 did onoff t o Hsame) as [Hr Hb].
  destruct (execute_device acc1.2 _ _ _ _) as [r1 s1].
  destruct (execute_device acc2.2 _ _ _ _) as [r2 s2].
  simpl in Hr, Hb. subst r2. by apply IH.
Qed.

(** X17. The smart-home endpoint never looks at the tokens: two states
    with the same device table, [last_trigger_time] and log are served
    alike, whatever their token maps, code ledger and token file; the
    answers are equal, and so are the device table, [last_trigger_time]
    and the log afterwards. *)
Theorem smarthome_ignores_token_stores
    (st1 st2 : state) (data : smarthome_body) (obs : nat -> Q * post_outcome) :
  bridge_fields st1 = bridge_fields st2 ->
  (smarthome st1 data obs).1 = (smarthome st2 data obs).1 /\
  bridge_fields (smarthome st1 data obs).2 = bridge_fields (smarthome st2 data obs).2.
Proof.
  intros Hsame.
  destruct (decide (intent data = "action.devices.EXECUTE"%string)) as [Hi|Hi].
  - rewrite !smarthome_execute by done. simpl.
    destruct (execute_targets_same_bridge
                (targets (p_commands (input_payload data))) obs ([], st1) ([], st2)
                eq_refl Hsame) as [-> ->]. done.
  - rewrite !smarthome_not_execute by done. split; [|done].
    unfold smarthome. repeat case_decide; try done.
    simpl. injection Hsame as Hd _ _.
    unfold query_device. by rewrite Hd.
Qed.

(** X18. An EXECUTE command without an [on] parameter is a request to turn
    the device off: when its call passes the cooldown test, the POST
    carries the action [destroy], the result reports [on] false, and the
    device table holds false. *)
Theorem missing_on_parameter_destroys
    (st : state) (data : smarthome_body) (obs : nat -> Q * post_outcome)
    (cmd : command) (dev : device_ref) :
  intent data = "action.devices.EXECUTE"%string ->
  p_commands (input_payload data) = [cmd] ->
  cmd_devices cmd = [dev] ->
  params (execution_head cmd) !! "on"%string = None ->
  MIN_INTERVAL <= (obs 0%nat).1 - last_trigger_time st ->
  let served := smarthome st data obs in
  In (HttpPost (obs 0%nat).1 "destroy") (effects served.2) /\
  device_states served.2 !! d_id dev = Some false /\
  exists result,
    served.1 = JsonExecute (requestId data) [result] /\
    ids result = [d_id dev] /\ states_on result = false.
Proof.
  intros Hi Hcmds Hdevs Hnone Hge served. subst served.
  rewrite smarthome_execute by done. rewrite Hcmds.
  unfold targets. simpl. rewrite Hdevs. unfold requested_on. rewrite Hnone. simpl.
  destruct (obs 0%nat) as [t o] eqn:Hobs. simpl in Hge.
  destruct (execute_device_forwarded_log st (d_id dev) false t o Hge) as (_ & _ & Hpost).
  pose proof (execute_device_device_states st (d_id dev) false t o) as Hdev.
  pose proof (execute_device_result st (d_id dev) false t o) as (Hids & Hon & _).
  destruct (execute_device st (d_id dev) false t o) as [r st']. simpl in *.
  split; [exact Hpost|]. split; [rewrite Hdev; apply lookup_insert_eq|].
  by exists r.
Qed.

End BridgeEndpoints.

(** ** The redirect of a login submission *)

Lemma contains_char_In c s :
  contains_char c s = true <-> In c (String.list_ascii_of_string s).
Proof.
  induction s as [|a rest IH]; simpl.
  - split; [discriminate|tauto].
  - case_decide as Hac.
    + split; auto.
    + rewrite IH. split; [auto|]. intros [H|H]; [by destruct Hac|done].
Qed.

(** X19. A login submission with a redirect target appends the code and
    the state after [&] when a [?] occurs anywhere in the target, and after
    [?] when none does; an absent state is appended as the empty string. *)
Theorem redirect_separator
    (VALID_CLIENTS : gmap string string) (st : state)
    (f : authorize_fields) (code redirect_uri : string) :
  af_redirect_uri f = Some redirect_uri ->
  let location sep :=
    Redirect (redirect_uri +:+ sep +:+ "code=" +:+ code
              +:+ "&state=" +:+ default "" (af_state f)) in
  (In "?"%char (String.list_ascii_of_string redirect_uri) ->
     (authorize VALID_CLIENTS st POST f code).1 = location "&") /\
  (~ In "?"%char (String.list_ascii_of_string redirect_uri) ->
     (authorize VALID_CLIENTS st POST f code).1 = location "?").
Proof.
  intros Huri location. subst location. simpl. rewrite Huri.
  split; intros Hin.
  - apply contains_char_In in Hin. by rewrite Hin.
  - destruct (contains_char "?" redirect_uri) eqn:Hc; [|done].
    apply contains_char_In in Hc. by destruct Hin.
Qed.

(** ** More on codes and on the rate of POSTs *)

Section MoreProperties.

Context (VALID_CLIENTS : gmap string string).

(** X20. An exchange that passes the client check and presents no code, or
    a code that is not in the ledger, is refused with [invalid_grant] (400)
    and changes nothing. *)
Theorem unknown_code_changes_nothing
    (st : state) (f : token_fields) (t16 t24 : string) :
  tf_grant_type f = Some "authorization_code" ->
  authenticated VALID_CLIENTS f ->
  py_get (auth_codes st) (tf_code f) = None ->
  token VALID_CLIENTS st f t16 t24 = (JsonError "invalid_grant" 400, st).
Proof.
  unfold authenticated. intros Hg Ha Hnone. unfold token.
  rewrite decide_True by done.
  rewrite decide_False by (intros Hne; by apply Hne).
  destruct (tf_code f) as [c|]; simpl in *.
  - rewrite Hnone. rewrite delete_id by done. by rewrite with_auth_codes_same.
  - by rewrite with_auth_codes_same.
Qed.

(** X21. Pending codes do not disturb one another: when two different
    codes are in the ledger, each bound to the client and redirect target
    of its own exchange request, the two exchanges succeed one after the
    other. *)
Theorem pending_codes_are_independent
    (st : state) (ex1 ex2 : token_fields) (c1 c2 t16 t24 u16 u24 : string) :
  c1 <> c2 ->
  tf_grant_type ex1 = Some "authorization_code" ->
  tf_grant_type ex2 = Some "authorization_code" ->
  authenticated VALID_CLIENTS ex1 ->
  authenticated VALID_CLIENTS ex2 ->
  tf_code ex1 = Some c1 ->
  tf_code ex2 = Some c2 ->
  auth_codes st !! c1 = Some (tf_client_id ex1, tf_redirect_uri ex1) ->
  auth_codes st !! c2 = Some (tf_client_id ex2, tf_redirect_uri ex2) ->
  let exchange1 := token VALID_CLIENTS st ex1 t16 t24 in
  let exchange2 := token VALID_CLIENTS exchange1.2 ex2 u16 u24 in
  exchange1.1 = JsonToken t16 "Bearer" 3600 (Some t24) /\
  exchange2.1 = JsonToken u16 "Bearer" 3600 (Some u24) /\
  auth_codes exchange2.2 !! c1 = None /\
  auth_codes exchange2.2 !! c2 = None.
Proof.
  intros Hne Hg1 Hg2 Ha1 Ha2 Hc1 Hc2 Hs1 Hs2 exchange1 exchange2.
  subst exchange2 exchange1.
  rewrite (token_code_ok _ st ex1 t16 t24 c1) by done. simpl.
  rewrite (token_code_ok _ _ ex2 u16 u24 c2); [|done..|].
  - simpl. split; [done|]. split; [done|]. split.
    + rewrite lookup_delete_ne by done. apply lookup_delete_eq.
    + apply lookup_delete_eq.
  - simpl. by rewrite lookup_delete_ne.
Qed.

End MoreProperties.

Lemma separated_span ts newest oldest :
  separated ts ->
  head ts = Some newest ->
  last ts = Some oldest ->
  (inject_Z (Z.of_nat (length ts - 1)) * MIN_INTERVAL <= newest - oldest)%Q.
Proof.
  revert newest. induction ts as [|t rest IH]; intros newest Hsep Hhead Hlast;
    [discriminate|].
  injection Hhead as ->.
  destruct rest as [|t' rest'].
  - injection Hlast as ->. change (0 * MIN_INTERVAL <= oldest - oldest)%Q.
    unfold MIN_INTERVAL. lra.
  - destruct Hsep as [Hall Hsep].
    pose proof (Forall_inv Hall) as Hgap. simpl in Hgap.
    specialize (IH t' Hsep eq_refl Hlast).
    replace (length (newest :: t' :: rest') - 1)%nat
      with (S (length (t' :: rest') - 1)) by (simpl; lia).
    rewrite Nat2Z.inj_succ, <- Z.add_1_r, inject_Z_plus.
    unfold MIN_INTERVAL in *.
    set (q := inject_Z (Z.of_nat (length (t' :: rest') - 1))) in *.
    change (inject_Z 1) with 1%Q. lra.
Qed.

(** X22. Jenkins is reached at most once per interval: after any sequence
    of requests served from startup, the [n] POSTs made so far span at
    least [n - 1] intervals of 10 seconds between the first and the last. *)
Theorem posts_are_rate_limited
    (VALID_CLIENTS : gmap string string)
    (file : option (gmap string (option string) * gmap string (option string)))
    (reqs : list request) (newest oldest : Q) :
  let posts := post_times (effects (run VALID_CLIENTS (initial_state file) reqs)) in
  head posts = Some newest ->
  last posts = Some oldest ->
  (inject_Z (Z.of_nat (length posts - 1)) * MIN_INTERVAL <= newest - oldest)%Q.
Proof.
  intros posts. apply separated_span.
  apply (run_inv VALID_CLIENTS reqs (initial_state file) (initial_state_inv file)).
Qed.

(** ** The further properties at concrete inputs *)

Lemma authorize_get_checks_client_witness :
  (authorize example_clients (initial_state None) GET login_ghost code_1).1
    = Plain "Unknown client_id" 400 /\
  (authorize example_clients (initial_state None) GET login_google code_1).1
    = LoginPage (Some "google-home") (Some "https://oauth.example/cb") "".
Proof.
  destruct (authorize_get_checks_client example_clients (initial_state None)
              login_ghost code_1) as (_ & Hunknown & _).
  destruct (authorize_get_checks_client example_clients (initial_state None)
              login_google code_1) as (_ & _ & Hknown).
  split.
  - apply Hunknown. vm_compute. reflexivity.
  - apply (Hknown "google-home" "s3cret"); [reflexivity|vm_compute; reflexivity].
Defined.

Lemma login_without_redirect_uri_leaves_code_witness :
  let submitted := authorize example_clients (initial_state None) POST login_no_redirect code_1 in
  submitted.1 = Raised "TypeError" /\
  (token example_clients submitted.2 (exchange_no_redirect code_1) access_2 refresh_2).1
    = JsonToken access_2 "Bearer" 3600 (Some refresh_2).
Proof.
  intros submitted.
  destruct (login_without_redirect_uri_leaves_code example_clients (initial_state None)
              login_no_redirect code_1 (exchange_no_redirect code_1) access_2 refresh_2)
    as (Hraised & _ & Hexchanged).
  - reflexivity.
  - reflexivity.
  - reflexivity.
  - reflexivity.
  - reflexivity.
  - vm_compute. reflexivity.
  - split; [exact Hraised|exact Hexchanged].
Defined.

Lemma token_response_shapes_witness :
  token example_clients (initial_state example_file) implicit_grant access_2 refresh_2
    = (JsonError "unsupported_grant_type" 400, initial_state example_file).
Proof.
  pose proof (token_response_shapes example_clients (initial_state example_file)
                implicit_grant access_2 refresh_2) as Hshape.
  destruct (token example_clients (initial_state example_file) implicit_grant
                  access_2 refresh_2) as [resp st'] eqn:Hserved.
  assert (Hresp : resp = JsonError "unsupported_grant_type" 400).
  { change resp with (resp, st').1. rewrite <- Hserved. vm_compute. reflexivity. }
  subst resp. simpl in Hshape. destruct Hshape as (_ & _ & _ & _ & Hsame).
  rewrite Hsame; [reflexivity|discriminate].
Defined.

Lemma token_rejects_wrong_secret_witness :
  token example_clients (initial_state example_file)
        (refresh_wrong_secret refresh_1) access_2 refresh_2
    = (JsonError "invalid_client" 401, initial_state example_file).
Proof.
  apply token_rejects_wrong_secret.
  - right. reflexivity.
  - left. exists "google-home", "s3cret".
    split; [reflexivity|]. split; [vm_compute; reflexivity|]. simpl. discriminate.
Defined.

Lemma refresh_token_is_bound_to_client_witness :
  let served := token two_clients (initial_state example_file)
                      (refresh_alexa refresh_1) access_2 refresh_2 in
  served.2 = initial_state example_file /\
  served.1 = JsonError "invalid_grant" 400.
Proof.
  intros served.
  destruct (refresh_token_is_bound_to_client two_clients (initial_state example_file)
              (refresh_alexa refresh_1) access_2 refresh_2 refresh_1)
    as (Hsame & Hgrant & _).
  - reflexivity.
  - reflexivity.
  - left. exists (Some "google-home").
    split; [vm_compute; reflexivity|]. simpl. discriminate.
  - split; [exact Hsame|]. apply Hgrant. vm_compute. reflexivity.
Defined.

Lemma exchanged_refresh_token_refreshes_witness :
  let issued := (authorize example_clients (initial_state None) POST login_google code_1).2 in
  let exchanged := token example_clients issued (exchange_google code_1) access_2 refresh_2 in
  exchanged.1 = JsonToken access_2 "Bearer" 3600 (Some refresh_2) /\
  (token example_clients exchanged.2 (refresh_google refresh_2) access_3 refresh_3).1
    = JsonToken access_3 "Bearer" 3600 None.
Proof.
  intros issued exchanged.
  destruct (exchanged_refresh_token_refreshes example_clients issued
              (exchange_google code_1) (refresh_google refresh_2)
              code_1 access_2 refresh_2 access_3 refresh_3)
    as (Hfirst & _ & _ & Hrefresh).
  - reflexivity.
  - vm_compute. reflexivity.
  - reflexivity.
  - vm_compute. reflexivity.
  - reflexivity.
  - reflexivity.
  - reflexivity.
  - reflexivity.
  - split; [exact Hfirst|exact Hrefresh].
Defined.

Lemma tokens_are_never_removed_witness :
  let reqs := [Token (refresh_google refresh_1) access_2 refresh_2;
               Token (refresh_wrong_secret refresh_1) access_3 refresh_3;
               Smarthome (execute_body [turn true ["jenkins_job"]]) obs_three_calls] in
  is_Some (access_tokens (run example_clients (initial_state example_file) reqs) !! access_1) /\
  is_Some (refresh_tokens (run example_clients (initial_state example_file) reqs) !! refresh_1).
Proof.
  intros reqs.
  destruct (tokens_are_never_removed example_clients (initial_state example_file)
              reqs access_1) as [Haccess _].
  destruct (tokens_are_never_removed example_clients (initial_state example_file)
              reqs refresh_1) as [_ Hrefresh].
  split.
  - apply Haccess. exists (Some "google-home"). vm_compute. reflexivity.
  - apply Hrefresh. exists (Some "google-home"). vm_compute. reflexivity.
Defined.

Lemma tokens_only_for_issued_codes_witness :
  exists c,
    tf_code (exchange_google code_1) = Some c /\
    Exists (issues c) [Authorize POST login_google code_1].
Proof.
  apply (tokens_only_for_issued_codes example_clients None
           [Authorize POST login_google code_1] (exchange_google code_1)
           access_2 refresh_2 access_2 "Bearer" 3600%Z refresh_2).
  vm_compute. reflexivity.
Defined.

Lemma only_execute_reaches_jenkins_witness :
  let st := initial_state example_file in
  bridge_fields (handle example_clients st
                   (Token (refresh_google refresh_1) access_2 refresh_2)).2
    = bridge_fields st /\
  (handle example_clients st
     (Smarthome (query_body ["jenkins_job"]) obs_three_calls)).2 = st.
Proof.
  intros st.
  destruct (only_execute_reaches_jenkins example_clients st
              (Token (refresh_google refresh_1) access_2 refresh_2)) as (Hbridge & _ & _).
  destruct (only_execute_reaches_jenkins example_clients st
              (Smarthome (query_body ["jenkins_job"]) obs_three_calls)) as (_ & _ & Hsame).
  split.
  - apply Hbridge. simpl. tauto.
  - apply (Hsame (query_body ["jenkins_job"]) obs_three_calls); [reflexivity|].
    simpl. discriminate.
Defined.

Lemma failed_post_starts_cooldown_witness :
  let call1 := trigger_jenkins (initial_state None) "apply" t_0 RequestException in
  let call2 := trigger_jenkins call1.2 "apply" t_5 (Responded 200) in
  call1.1 = false /\ call2.1 = false /\
  post_times (effects call2.2) = [t_0].
Proof.
  intros call1 call2.
  destruct (failed_post_starts_cooldown (initial_state None) "apply" "apply"
              t_0 t_5 RequestException (Responded 200))
    as (Hfirst & _ & Hsecond & Hposts & _).
  - vm_compute. discriminate.
  - discriminate.
  - vm_compute. reflexivity.
  - split; [exact Hfirst|]. split; [exact Hsecond|exact Hposts].
Defined.

Lemma lock_is_always_released_witness :
  lock_held (effects (run example_clients (initial_state None)
                        [Smarthome lamp_on_then_off obs_unreachable])) = false.
Proof.
  destruct (lock_is_always_released example_clients (initial_state None)
              [Smarthome lamp_on_then_off obs_unreachable]
              "apply" t_0 RequestException) as [_ Hrun].
  apply Hrun. reflexivity.
Defined.

Lemma batch_posts_at_most_once_witness :
  let served :=
    smarthome (initial_state None)
      (execute_body [turn true ["jenkins_job"; "lamp"; "fan"]])
      (obs_const t_0 (Responded 200)) in
  (length (post_times (effects served.2)) <= 1)%nat /\
  match served.1 with
  | JsonExecute _ results => (successes results <= 1)%nat
  | _ => False
  end.
Proof.
  intros served.
  destruct (batch_posts_at_most_once (initial_state None)
              (execute_body [turn true ["jenkins_job"; "lamp"; "fan"]])
              (obs_const t_0 (Responded 200))) as [Hposts Hsuccesses].
  - intros i j. vm_compute. reflexivity.
  - split; [exact Hposts|].
    fold served in Hsuccesses.
    destruct served.1 eqn:Hresp; try (vm_compute in Hresp; discriminate Hresp).
    by eapply Hsuccesses.
Defined.

Lemma query_after_execute_witness :
  let executed := smarthome (initial_state None) lamp_on_then_off obs_unreachable in
  device_states executed.2 !! "lamp" = Some false /\
  exists resp,
    (smarthome executed.2 (query_body ["lamp"]) obs_unreachable).1
      = JsonQuery "req-1" resp /\
    resp !! "lamp" = Some (QueryResult true false).
Proof.
  apply (query_after_execute (initial_state None) lamp_on_then_off (query_body ["lamp"])
           obs_unreachable obs_unreachable [("lamp", true)] [("fan", false)] "lamp" false).
  - reflexivity.
  - reflexivity.
  - simpl. intros [H|[]]. discriminate H.
  - reflexivity.
  - simpl. auto.
Defined.

Lemma empty_requests_witness :
  smarthome (initial_state None) (execute_body [turn true []]) obs_three_calls
    = (JsonExecute "req-2" [], initial_state None) /\
  smarthome (initial_state None) (query_body []) obs_three_calls
    = (JsonQuery "req-1" ∅, initial_state None).
Proof.
  destruct (empty_requests (initial_state None) (execute_body [turn true []])
              obs_three_calls) as [Hexecute _].
  destruct (empty_requests (initial_state None) (query_body [])
              obs_three_calls) as [_ Hquery].
  split.
  - apply Hexecute; [reflexivity|].
    apply Forall_cons_2; [reflexivity|apply Forall_nil_2].
  - apply Hquery; reflexivity.
Defined.

Lemma smarthome_ignores_token_stores_witness :
  (smarthome (initial_state None) lamp_on_then_off obs_three_calls).1
    = (smarthome (initial_state example_file) lamp_on_then_off obs_three_calls).1.
Proof.
  destruct (smarthome_ignores_token_stores (initial_state None) (initial_state example_file)
              lamp_on_then_off obs_three_calls) as [Hresp _].
  - reflexivity.
  - exact Hresp.
Defined.

Lemma missing_on_parameter_destroys_witness :
  let served := smarthome (initial_state None)
                  (execute_body [no_on_param ["jenkins_job"]])
                  (obs_const t_0 (Responded 200)) in
  In (HttpPost t_0 "destroy") (effects served.2) /\
  device_states served.2 !! "jenkins_job" = Some false.
Proof.
  intros served.
  destruct (missing_on_parameter_destroys (initial_state None)
              (execute_body [no_on_param ["jenkins_job"]])
              (obs_const t_0 (Responded 200))
              (no_on_param ["jenkins_job"]) (DeviceRef "jenkins_job"))
    as (Hpost & Hdev & _).
  - reflexivity.
  - reflexivity.
  - reflexivity.
  - vm_compute. reflexivity.
  - vm_compute. discriminate.
  - split; [exact Hpost|exact Hdev].
Defined.

Lemma redirect_separator_witness :
  (authorize example_clients (initial_state None) POST login_ghost code_1).1
    = Redirect "https://oauth.example/cb?p=1&code=q1W2e3R4t5Y&state=xyz" /\
  (authorize example_clients (initial_state None) POST login_google code_1).1
    = Redirect "https://oauth.example/cb?code=q1W2e3R4t5Y&state=".
Proof.
  destruct (redirect_separator example_clients (initial_state None) login_ghost code_1
              "https://oauth.example/cb?p=1" eq_refl) as [Hwith _].
  destruct (redirect_separator example_clients (initial_state None) login_google code_1
              "https://oauth.example/cb" eq_refl) as [_ Hwithout].
  split.
  - apply Hwith. vm_compute. tauto.
  - apply Hwithout. vm_compute. intros H.
    repeat (destruct H as [H|H]; [discriminate H|]). exact H.
Defined.

Lemma unknown_code_changes_nothing_witness :
  token example_clients (initial_state example_file) (exchange_google code_1)
        access_2 refresh_2
    = (JsonError "invalid_grant" 400, initial_state example_file).
Proof.
  apply unknown_code_changes_nothing.
  - reflexivity.
  - vm_compute. reflexivity.
  - vm_compute. reflexivity.
Defined.

Lemma pending_codes_are_independent_witness :
  let exchange1 := token example_clients two_pending_codes (exchange_google code_2)
                         access_2 refresh_2 in
  let exchange2 := token example_clients exchange1.2 (exchange_google code_1)
                         access_3 refresh_3 in
  exchange1.1 = JsonToken access_2 "Bearer" 3600 (Some refresh_2) /\
  exchange2.1 = JsonToken access_3 "Bearer" 3600 (Some refresh_3).
Proof.
  intros exchange1 exchange2.
  destruct (pending_codes_are_independent example_clients two_pending_codes
              (exchange_google code_2) (exchange_google code_1)
              code_2 code_1 access_2 refresh_2 access_3 refresh_3)
    as (Hfirst & Hsecond & _).
  - vm_compute. discriminate.
  - reflexivity.
  - reflexivity.
  - vm_compute. reflexivity.
  - vm_compute. reflexivity.
  - reflexivity.
  - reflexivity.
  - vm_compute. reflexivity.
  - vm_compute. reflexivity.
  - split; [exact Hfirst|exact Hsecond].
Defined.

Lemma posts_are_rate_limited_witness :
  (inject_Z 1 * MIN_INTERVAL <= t_15 - t_0)%Q.
Proof.
  apply (posts_are_rate_limited example_clients None
           [Smarthome (execute_body [turn true ["jenkins_job"; "lamp"; "fan"]])
                      obs_three_calls] t_15 t_0).
  - vm_compute. reflexivity.
  - vm_compute. reflexivity.
Defined.
